(** * SafeLabs dashboard: sensor-status classification

    A shallow embedding of the classification core of
    [dashboard/dashboard.py] ([is_sensor_online], [analyze_data], the
    "All Labs Status" loop of [main] and [get_latest_data]) together
    with the properties the specification states about it.

    Readings are the JSON values handed back by the realtime database:
    [None], booleans, integers, floats, strings, lists and dictionaries
    keyed by strings.  Python exceptions are results of an error monad,
    the wall clock read by [time.time()] is an explicit argument. *)

From Stdlib Require Import ZArith QArith String Ascii List DecimalString Lia Lqa.
From stdpp Require Import base option gmap strings.

Local Open Scope string_scope.
Local Open Scope Z_scope.

(** ** Python values *)

(** A float is kept as the decimal numeral [fmant * 10^-fscale] that
    Python's [repr] prints for it (the shortest numeral that reads back
    as the same double), so that [str] is exact.  Ordering against an
    integer below 2^53 is decided by that numeral exactly as it is by
    the double, because reading a numeral is monotone and integers of
    that size are doubles.  The negative zero [-0.0], which no numeral
    with a zero mantissa tells from [0.0], is a value of its own.  NaN
    and the infinities are not JSON numbers and are left out. *)
#[local] Unset Elimination Schemes.
Inductive pyval : Type :=
| PNone
| PBool (b : bool)
| PInt (z : Z)
| PFloat (fmant : Z) (fscale : nat)
| PStr (s : string)
| PList (l : list pyval)
| PDict (m : gmap string pyval)
| PNegZero.
#[local] Set Elimination Schemes.

(** ** Exceptions *)

Inductive exn : Type :=
| TypeError | AttributeError | KeyError
| ValueError | OverflowError | OSError.

Inductive result (A : Type) : Type :=
| Ok (a : A)
| Raise (e : exn).
Arguments Ok {A} a.
Arguments Raise {A} e.

Definition bind {A B} (r : result A) (f : A -> result B) : result B :=
  match r with
  | Ok a => f a
  | Raise e => Raise e
  end.

Notation "x <- e ; k" := (bind e (fun x => k))
  (at level 20, e at level 100, k at level 200, only parsing).
Notation "' p <- e ; k" := (bind e (fun x => match x with p => k end))
  (at level 20, p pattern, e at level 100, k at level 200, only parsing).

(** [try: body except: handler] with a bare [except]. *)
Definition try_except {A} (body handler : result A) : result A :=
  match body with
  | Ok a => Ok a
  | Raise _ => handler
  end.

(** [a or b] on conditions: [b] is not looked at when [a] is true. *)
Definition py_or (a b : result bool) : result bool :=
  x <- a ; if x then Ok true else b.

(** ** Built-in operations used by the dashboard *)

(** [bool(v)], the test behind [if not data]. *)
Definition truthy (v : pyval) : bool :=
  match v with
  | PNone => false
  | PBool b => b
  | PInt z => negb (z =? 0)
  | PFloat m _ => negb (m =? 0)
  | PStr s => negb (String.eqb s "")
  | PList l => match l with [] => false | _ => true end
  | PDict m => negb (bool_decide (m = ∅))
  | PNegZero => false
  end.

(** The numeric view of a value as mantissa and decimal scale; [bool] is
    a subclass of [int]. *)
Definition num_of (v : pyval) : option (Z * nat) :=
  match v with
  | PBool b => Some (Z.b2z b, 0%nat)
  | PInt z => Some (z, 0%nat)
  | PFloat m s => Some (m, s)
  | PNegZero => Some (0, 0%nat)
  | _ => None
  end.

(** Order comparisons against an [int]; every comparison of the
    dashboard has an integer on one side.  A non-number on the other
    side is a [TypeError]. *)
Definition py_cmp (v : pyval) (k : Z) : result comparison :=
  match num_of v with
  | Some (m, s) => Ok (m ?= k * 10 ^ Z.of_nat s)
  | None => Raise TypeError
  end.

Definition py_gt (v : pyval) (k : Z) : result bool :=
  c <- py_cmp v k ; Ok (match c with Gt => true | _ => false end).

Definition py_lt (v : pyval) (k : Z) : result bool :=
  c <- py_cmp v k ; Ok (match c with Lt => true | _ => false end).

Definition py_le (v : pyval) (k : Z) : result bool :=
  c <- py_cmp v k ; Ok (match c with Gt => false | _ => true end).

(** [k - v] for an [int] [k].  With a float [v] the difference is taken
    exactly, on the numerals, where Python rounds it to a double.  The
    staleness test below, the one use of the difference, comes out the
    same either way while the clock [k] is a non-negative integer below
    2^53 and the timeout is non-negative and under 10^9 (see
    [exact_age]): a difference that is not exact is then below [-k] or
    above 10^9, on the same side of the timeout rounded or not. *)
Definition py_sub (k : Z) (v : pyval) : result pyval :=
  match v with
  | PBool b => Ok (PInt (k - Z.b2z b))
  | PInt z => Ok (PInt (k - z))
  | PFloat m s => Ok (PFloat (k * 10 ^ Z.of_nat s - m) s)
  | PNegZero => Ok (PFloat k 0)
  | _ => Raise TypeError
  end.

Definition is_substring (needle hay : string) : bool :=
  match String.index 0 needle hay with
  | Some _ => true
  | None => false
  end.

(** [key in container] for a string [key]: key membership in a dict,
    element membership in a list, substring test in a string, and a
    [TypeError] for values that are not containers. *)
Definition py_in (key : string) (c : pyval) : result bool :=
  match c with
  | PDict m => Ok (bool_decide (is_Some (m !! key)))
  | PList l =>
      Ok (existsb (fun x => match x with
                            | PStr s => String.eqb s key
                            | _ => false
                            end) l)
  | PStr s => Ok (is_substring key s)
  | _ => Raise TypeError
  end.

(** [c.get(key, dflt)]: only dictionaries have the method. *)
Definition py_get (c : pyval) (key : string) (dflt : pyval) : result pyval :=
  match c with
  | PDict m => Ok (default dflt (m !! key))
  | _ => Raise AttributeError
  end.

(** ** [str] of numbers, as interpolated by an f-string *)

Definition int_str (z : Z) : string := NilZero.string_of_int (Z.to_int z).

Fixpoint zeros (n : nat) : string :=
  match n with
  | O => ""
  | S n => String "0" (zeros n)
  end.

Fixpoint rev_string (s acc : string) : string :=
  match s with
  | EmptyString => acc
  | String c s => rev_string s (String c acc)
  end.

Fixpoint drop_zeros (s : string) : string :=
  match s with
  | String "0" s' => drop_zeros s'
  | _ => s
  end.

Definition strip_trailing_zeros (s : string) : string :=
  rev_string (drop_zeros (rev_string s "")) "".

(** [repr] of a float: positional notation while the decimal point sits
    after at most 16 digits and before at most 3 leading zeros, the
    exponent form otherwise. *)
Definition float_str (m : Z) (s : nat) : string :=
  if m =? 0 then "0.0" else
  let sign := if m <? 0 then "-" else "" in
  let all := int_str (Z.abs m) in
  let digs := strip_trailing_zeros all in
  let n := Z.of_nat (String.length digs) in
  let decpt := Z.of_nat (String.length all) - Z.of_nat s in
  sign +:+
  (if (-4 <? decpt) && (decpt <=? 16) then
     if decpt <=? 0 then "0." +:+ zeros (Z.to_nat (- decpt)) +:+ digs
     else if n <=? decpt then digs +:+ zeros (Z.to_nat (decpt - n)) +:+ ".0"
     else String.substring 0 (Z.to_nat decpt) digs +:+ "." +:+
          String.substring (Z.to_nat decpt) (Z.to_nat (n - decpt)) digs
   else
     let e := decpt - 1 in
     let ea := int_str (Z.abs e) in
     String.substring 0 1 digs +:+
     (if n =? 1 then "" else "." +:+ String.substring 1 (Z.to_nat (n - 1)) digs) +:+
     "e" +:+ (if e <? 0 then "-" else "+") +:+
     (if Z.abs e <? 10 then "0" +:+ ea else ea)).

(** [str(v)] as used by [f"{v}"].  Only numbers get this far in
    [analyze_data] (see [analyze_issues_numbers] below); the rendering of
    containers is not needed and stands as its type name. *)
Definition py_str (v : pyval) : string :=
  match v with
  | PNone => "None"
  | PBool b => if b then "True" else "False"
  | PInt z => int_str z
  | PFloat m s => float_str m s
  | PStr s => s
  | PList _ => "<list>"
  | PDict _ => "<dict>"
  | PNegZero => "-0.0"
  end.

(** ** The dashboard's status functions *)

(** The status word returned first by [analyze_data]. *)
Inductive tier : Type := UNKNOWN | OFFLINE | SAFE | WARNING | CRITICAL.

Definition tier_str (t : tier) : string :=
  match t with
  | UNKNOWN => "UNKNOWN"
  | OFFLINE => "OFFLINE"
  | SAFE => "SAFE"
  | WARNING => "WARNING"
  | CRITICAL => "CRITICAL"
  end.

(** The [try] block of [is_sensor_online]; [now] is the value of
    [int(time.time())]. *)
Definition online_try (now : Z) (data : pyval) (timeout_seconds : Z)
  : result bool :=
  has_timestamp <- py_in "timestamp" data ;
  if has_timestamp then
    data_timestamp <- py_get data "timestamp" (PInt 0) ;
    let current_time := now in
    unix <- py_gt data_timestamp 1000000000 ;
    if unix then
      age_seconds <- py_sub current_time data_timestamp ;
      py_le age_seconds timeout_seconds
    else Ok true
  else py_or (py_in "temperature" data) (py_in "humidity" data).

(** [is_sensor_online(data, timeout_seconds=30)]: the guard on missing
    data, then the [try] block with [except: return True]. *)
Definition is_sensor_online (now : Z) (data : pyval) (timeout_seconds : Z)
  : result bool :=
  if negb (truthy data) then Ok false
  else try_except (online_try now data timeout_seconds) (Ok true).

(** The threshold checks of [analyze_data] (the three [if]/[elif]
    statements over [temp], [humidity] and [gas_ppm]), returning the two
    lists [critical_issues] and [warnings] they build by [append]. *)
Definition analyze_issues (temp humidity gas_ppm : pyval)
  : result (list string * list string) :=
  let critical_issues : list string := [] in
  let warnings : list string := [] in
  '(critical_issues, warnings) <-
    (c <- py_or (py_gt temp 30) (py_lt temp 10) ;
     if c then
       Ok ((critical_issues ++ ["Critical Temperature: " +:+ py_str temp +:+ "¬∞C"])%list,
           warnings)
     else
       w <- py_or (py_gt temp 26) (py_lt temp 18) ;
       if w then
         Ok (critical_issues,
             (warnings ++ ["Temperature Warning: " +:+ py_str temp +:+ "¬∞C"])%list)
       else Ok (critical_issues, warnings)) ;
  '(critical_issues, warnings) <-
    (c <- py_or (py_gt humidity 70) (py_lt humidity 20) ;
     if c then
       Ok ((critical_issues ++ ["Critical Humidity: " +:+ py_str humidity +:+ "%"])%list,
           warnings)
     else
       w <- py_or (py_gt humidity 60) (py_lt humidity 30) ;
       if w then
         Ok (critical_issues,
             (warnings ++ ["Humidity Warning: " +:+ py_str humidity +:+ "%"])%list)
       else Ok (critical_issues, warnings)) ;
  '(critical_issues, warnings) <-
    (c <- py_gt gas_ppm 800 ;
     if c then
       Ok ((critical_issues ++ ["Dangerous Gas Level: " +:+ py_str gas_ppm +:+ " ppm"])%list,
           warnings)
     else
       w <- py_gt gas_ppm 500 ;
       if w then
         Ok (critical_issues,
             (warnings ++ ["Elevated Gas Level: " +:+ py_str gas_ppm +:+ " ppm"])%list)
       else Ok (critical_issues, warnings)) ;
  Ok (critical_issues, warnings).

(** [analyze_data(data)]: status word, message and colour.  The online
    check is called with its default timeout of 30 seconds. *)
Definition analyze_data (now : Z) (data : pyval)
  : result (tier * string * string) :=
  if negb (truthy data) then Ok (UNKNOWN, "No data available", "gray") else
  online <- is_sensor_online now data 30 ;
  if negb online then
    Ok (OFFLINE, "Sensor not responding - simulator may be stopped", "gray")
  else
    temp <- py_get data "temperature" (PInt 0) ;
    humidity <- py_get data "humidity" (PInt 0) ;
    gas_ppm <- py_get data "gas_ppm" (PInt 0) ;
    motion <- py_get data "motion_detected" (PBool false) ;
    '(critical_issues, warnings) <- analyze_issues temp humidity gas_ppm ;
    match critical_issues, warnings with
    | _ :: _, _ => Ok (CRITICAL, String.concat " | " critical_issues, "red")
    | [], _ :: _ => Ok (WARNING, String.concat " | " warnings, "orange")
    | [], [] => Ok (SAFE, "All parameters within safe range", "green")
    end.

(** ** The "All Labs Status" summary of [main] *)

(** What the page shows: [st.markdown] and [st.error] calls, in order. *)
Inductive widget : Type :=
| Markdown (s : string)
| ErrorBox (s : string).

(** [get_latest_data(device_id)].  The database answers a path with a
    value or with an exception, given here by its message; the
    exception is reported on the page and turned into [None]. *)
Definition get_latest_data (store : string -> pyval + string)
    (device_id : string) : pyval * list widget :=
  match store ("/devices/" +:+ device_id +:+ "/latest") with
  | inl data => (data, [])
  | inr e => (PNone, [ErrorBox ("Error fetching data: " +:+ e)])
  end.

Definition lab_names : gmap string string :=
  <["sensor_node_01" := "Lab A"]>
    (<["sensor_node_02" := "Room B"]>
       (<["sensor_node_03" := "Lab C"]> ∅)).

(** Subscript of the literal dictionary of lab names. *)
Definition lab_name_of (lab_id : string) : result string :=
  match lab_names !! lab_id with
  | Some n => Ok n
  | None => Raise KeyError
  end.

Definition status_emoji (status : tier) : string :=
  match status with
  | SAFE => "üü¢"
  | WARNING => "üü°"
  | CRITICAL => "üî¥"
  | _ => "‚ö´"
  end.

(** One turn of the loop [for lab_id in [...]]; [now lab_id] is the
    clock when that lab is analysed, [ui] the page so far. *)
Definition lab_status (now : string -> Z) (store : string -> pyval + string)
    (ui : list widget) (lab_id : string) : result (list widget) :=
  let '(lab_data, shown) := get_latest_data store lab_id in
  let ui := (ui ++ shown)%list in
  if truthy lab_data then
    '(status, _, color) <- analyze_data (now lab_id) lab_data ;
    let emoji := status_emoji status in
    lab_name <- lab_name_of lab_id ;
    Ok (ui ++ [Markdown (emoji +:+ " **" +:+ lab_name +:+ "**: " +:+ tier_str status)])%list
  else
    lab_name <- lab_name_of lab_id ;
    Ok (ui ++ [Markdown ("‚ö´ **" +:+ lab_name +:+ "**: OFFLINE")])%list.

(** The loop over the labs.  An exception ends it: the result is then
    the exception alone, without the lines that the turns before it
    have already sent to the page. *)
Fixpoint all_labs_status (now : string -> Z) (store : string -> pyval + string)
    (lab_ids : list string) (ui : list widget) : result (list widget) :=
  match lab_ids with
  | [] => Ok ui
  | lab_id :: rest =>
      ui' <- lab_status now store ui lab_id ;
      all_labs_status now store rest ui'
  end.

Definition all_labs : list string :=
  ["sensor_node_01"; "sensor_node_02"; "sensor_node_03"].

(** ** The specification's reading of the classifier *)

(** The rational number a numeric value stands for. *)
Definition pow10 (s : nat) : positive := Z.to_pos (10 ^ Z.of_nat s).

Definition qval (v : pyval) : Q :=
  match num_of v with
  | Some (m, s) => m # pow10 s
  | None => 0
  end.

Definition is_number (v : pyval) : bool :=
  match num_of v with
  | Some _ => true
  | None => false
  end.

(** [x > k] and [x < k] on rationals. *)
Definition exceeds (x : Q) (k : Z) : bool := negb (Qle_bool x (inject_Z k)).
Definition under (x : Q) (k : Z) : bool := negb (Qle_bool (inject_Z k) x).

Inductive metric : Type := Temperature | Humidity | Gas.
Inductive level : Type := Critical | Warning | Normal.

Definition level_eqb (a b : level) : bool :=
  match a, b with
  | Critical, Critical | Warning, Warning | Normal, Normal => true
  | _, _ => false
  end.

(** The threshold table of the specification: critical condition first,
    the warning condition only if the critical one did not fire. *)
Definition metric_level (k : metric) (x : Q) : level :=
  match k with
  | Temperature =>
      if exceeds x 30 || under x 10 then Critical
      else if exceeds x 26 || under x 18 then Warning
      else Normal
  | Humidity =>
      if exceeds x 70 || under x 20 then Critical
      else if exceeds x 60 || under x 30 then Warning
      else Normal
  | Gas =>
      if exceeds x 800 then Critical
      else if exceeds x 500 then Warning
      else Normal
  end.

(** The wording of a reason: label, value, unit. *)
Definition reason_label (k : metric) (lv : level) : string :=
  match k, lv with
  | Temperature, Critical => "Critical Temperature: "
  | Temperature, _ => "Temperature Warning: "
  | Humidity, Critical => "Critical Humidity: "
  | Humidity, _ => "Humidity Warning: "
  | Gas, Critical => "Dangerous Gas Level: "
  | Gas, _ => "Elevated Gas Level: "
  end.

Definition reason_unit (k : metric) : string :=
  match k with
  | Temperature => "¬∞C"
  | Humidity => "%"
  | Gas => " ppm"
  end.

Definition reason (k : metric) (lv : level) (v : pyval) : string :=
  reason_label k lv +:+ py_str v +:+ reason_unit k.

(** The reasons of one tier, in the order of the metrics given. *)
Definition reasons_at (lv : level) (ms : list (metric * pyval)) : list string :=
  flat_map (fun '(k, v) =>
              if level_eqb (metric_level k (qval v)) lv then [reason k lv v]
              else []) ms.

Definition readings (temp humidity gas_ppm : pyval) : list (metric * pyval) :=
  [(Temperature, temp); (Humidity, humidity); (Gas, gas_ppm)].

(** The classifier as the specification words it: critical reasons if
    there are any, else warning reasons if there are any, else safe. *)
Definition spec_classify (temp humidity gas_ppm : pyval) : tier * list string :=
  let ms := readings temp humidity gas_ppm in
  match reasons_at Critical ms, reasons_at Warning ms with
  | (_ :: _) as crit, _ => (CRITICAL, crit)
  | [], (_ :: _) as warn => (WARNING, warn)
  | [], [] => (SAFE, ["All parameters within safe range"])
  end.

(** How [analyze_data] reports a tier and its reasons: the reasons
    joined by a bar, and the tier's colour. *)
Definition tier_color (t : tier) : string :=
  match t with
  | CRITICAL => "red"
  | WARNING => "orange"
  | SAFE => "green"
  | _ => "gray"
  end.

Definition report (c : tier * list string) : tier * string * string :=
  (fst c, String.concat " | " (snd c), tier_color (fst c)).

(** A metric of a reading, with the default of [data.get(key, 0)]. *)
Definition metric_of (m : gmap string pyval) (key : string) : pyval :=
  default (PInt 0) (m !! key).

(** The fields the classifier compares hold numbers where present. *)
Definition numeric_metrics (m : gmap string pyval) : Prop :=
  is_number (metric_of m "temperature") = true /\
  is_number (metric_of m "humidity") = true /\
  is_number (metric_of m "gas_ppm") = true.

(** Written from the specification's wording of reason values: the
    value rounded to [d] decimals (ties to even) and printed with
    exactly [d] decimals, as an integer when [d] is 0. *)
Definition round_half_even (n den : Z) : Z :=
  let q := n / den in
  let r := n mod den in
  if 2 * r <? den then q
  else if den <? 2 * r then q + 1
  else if Z.even q then q else q + 1.

Definition fixed_str (q : Z) (d : nat) : string :=
  let a := Z.abs q in
  let whole := int_str (a / 10 ^ Z.of_nat d) in
  let frac := int_str (a mod 10 ^ Z.of_nat d) in
  (if q <? 0 then "-" else "") +:+ whole +:+
  match d with
  | O => ""
  | _ => "." +:+ zeros (d - String.length frac) +:+ frac
  end.

Definition spec_rounded (d : nat) (v : pyval) : string :=
  match num_of v with
  | Some (m, s) =>
      fixed_str (round_half_even (m * 10 ^ Z.of_nat d) (10 ^ Z.of_nat s)) d
  | None => py_str v
  end.

Definition spec_reason (k : metric) (lv : level) (v : pyval) : string :=
  reason_label k lv +:+
  spec_rounded (match k with Gas => 0 | _ => 1 end) v +:+
  reason_unit k.

(** What one lab adds to the summary, as a function of that lab's own
    fetch alone. *)
Definition lab_path (lab_id : string) : string :=
  "/devices/" +:+ lab_id +:+ "/latest".

Definition offline_line (lab_id : string) : widget :=
  Markdown ("‚ö´ **" +:+ default "" (lab_names !! lab_id) +:+ "**: OFFLINE").

Definition status_line (lab_id : string) (status : tier) : widget :=
  Markdown (status_emoji status +:+ " **" +:+ default "" (lab_names !! lab_id)
            +:+ "**: " +:+ tier_str status).

Definition lab_section (now : Z) (lab_id : string) (fetched : pyval + string)
  : list widget :=
  match fetched with
  | inr e => [ErrorBox ("Error fetching data: " +:+ e); offline_line lab_id]
  | inl data =>
      if truthy data then
        match analyze_data now data with
        | Ok (status, _, _) => [status_line lab_id status]
        | Raise _ => []
        end
      else [offline_line lab_id]
  end.

(** Sample readings used in the examples. *)
Definition reading (fields : list (string * pyval)) : pyval :=
  PDict (list_to_map fields).

Definition safe_fields : list (string * pyval) :=
  [("temperature", PInt 22); ("humidity", PInt 45); ("gas_ppm", PInt 100);
   ("motion_detected", PBool false)].

(** A safe reading stamped with the epoch second [ts]. *)
Definition stamped (ts : Z) : pyval :=
  reading (("timestamp", PInt ts) :: safe_fields).

(** A reading in which one metric holds [v], the others safe values. *)
Definition with_metric (key : string) (v : pyval) : pyval :=
  PDict (<[key := v]> (list_to_map safe_fields)).

(** A metric is at level [lv] of the threshold table. *)
Definition at_level (lv : level) (kv : metric * pyval) : Prop :=
  metric_level (fst kv) (qval (snd kv)) = lv.

(** A string is the reason of some metric at level [lv]. *)
Definition reason_of_level (lv : level) (r : string) : Prop :=
  exists k v, r = reason k lv v.

(** Temperature critical while humidity is only at its warning level. *)
Definition hot_and_humid : gmap string pyval :=
  list_to_map [("temperature", PInt 35); ("humidity", PInt 65);
               ("gas_ppm", PInt 100)].

(** The law of one row of the threshold table for the check [run] of a
    single metric: the critical reason alone under the critical
    condition, the warning reason alone under the warning condition
    when the critical one fails, and nothing otherwise. *)
Definition threshold_law (k : metric) (crit warn : Q -> Prop)
    (run : pyval -> result (list string * list string)) : Prop :=
  forall v, is_number v = true ->
    (crit (qval v) -> run v = Ok ([reason k Critical v], [])) /\
    (~ crit (qval v) -> warn (qval v) -> run v = Ok ([], [reason k Warning v])) /\
    (~ crit (qval v) -> ~ warn (qval v) -> run v = Ok ([], [])).

(** The name of a metric as it appears in a reason. *)
Definition metric_name (k : metric) : string :=
  match k with
  | Temperature => "Temperature"
  | Humidity => "Humidity"
  | Gas => "Gas"
  end.

(** A reading with temperature and humidity only. *)
Definition climate_only : gmap string pyval :=
  list_to_map [("temperature", PInt 22); ("humidity", PInt 45)].

(** A database in which the second lab cannot be fetched, the first is
    safe and the third is warm. *)
Definition sample_store (path : string) : pyval + string :=
  if String.eqb path "/devices/sensor_node_02/latest" then inr "connection lost"
  else if String.eqb path "/devices/sensor_node_03/latest"
       then inl (with_metric "temperature" (PInt 27))
       else inl (reading safe_fields).

(** Every fetched, present reading of the labs [ids] is analysed
    without an exception. *)
Definition analyses_succeed (now : string -> Z) (store : string -> pyval + string)
    (ids : list string) : Prop :=
  forall id data, In id ids -> store (lab_path id) = inl data ->
    truthy data = true -> exists r, analyze_data (now id) data = Ok r.

(** An online reading (boot-time timestamp) without a temperature, one
    without a humidity and one without a gas field. *)
Definition no_temperature : gmap string pyval :=
  list_to_map [("timestamp", PInt 1234); ("humidity", PInt 45);
               ("gas_ppm", PInt 100)].

Definition no_humidity : gmap string pyval :=
  list_to_map [("timestamp", PInt 1234); ("temperature", PInt 22);
               ("gas_ppm", PInt 100)].

(** ** The rest of the device page and the air-conditioning flag *)

(** The realtime database as the dashboard uses it: the JSON value
    written at each path, [None] where nothing was written.  [outage]
    tells, for one call, which paths cannot be reached, with the message
    of the exception. *)
Definition db_get (outage : string -> option string) (db : gmap string pyval)
    (path : string) : pyval + string :=
  match outage path with
  | Some e => inr e
  | None => inl (default PNone (db !! path))
  end.

Definition db_set (outage : string -> option string) (db : gmap string pyval)
    (path : string) (v : pyval) : gmap string pyval + string :=
  match outage path with
  | Some e => inr e
  | None => inl (<[path := v]> db)
  end.

(** [get_ac_status(device_id)]: [ref.get() or False], and [False] on
    any exception. *)
Definition get_ac_status (store : string -> pyval + string)
    (device_id : string) : pyval :=
  match store ("/labs/" +:+ device_id +:+ "/ac") with
  | inl v => if truthy v then v else PBool false
  | inr _ => PBool false
  end.

(** [set_ac_status(device_id, status)]: the new database, the returned
    flag and what [st.error] shows. *)
Definition set_ac_status (outage : string -> option string)
    (db : gmap string pyval) (device_id : string) (status : pyval)
  : gmap string pyval * bool * list widget :=
  match db_set outage db ("/labs/" +:+ device_id +:+ "/ac") status with
  | inl db' => (db', true, [])
  | inr e => (db, false, [ErrorBox ("Error setting AC status: " +:+ e)])
  end.

(** The other calls of the page: [st.info], [st.warning],
    [st.subheader], [st.metric] and [st.caption]. *)
Inductive element : Type :=
| Shown (w : widget)
| Info (s : string)
| Warn (s : string)
| Subheader (s : string)
| Metric (label value delta : string)
| Caption (s : string).

(** How the script goes on: to the rest of the page, to [st.rerun()]
    after five seconds, or to [st.stop()]. *)
Inductive flow : Type := Continue | Rerun | Stop.

Definition dquote : string := String (Ascii.ascii_of_nat 34) EmptyString.

Definition alert (class text : string) : element :=
  Shown (Markdown ("<div class=" +:+ dquote +:+ class +:+ dquote +:+ ">"
                   +:+ text +:+ "</div>")).

(** The page of an offline sensor. *)
Definition offline_page : list element :=
  [alert "alert-warning" "‚ö´ OFFLINE: Sensor not responding";
   Info "üí° **Tip**: Start the Wokwi simulation for this lab to see live data";
   Subheader "Live Sensor Readings";
   Metric "Temperature" "-- ¬∞C" "Offline";
   Metric "Humidity" "-- %" "Offline";
   Metric "Gas Level" "-- ppm" "Offline";
   Metric "Occupancy" "Unknown" "Offline";
   Shown (Markdown "---");
   Warn "‚ö†Ô∏è Sensor offline - Start the simulation to view real-time data"].

(** The head of the device page in [main]: fetching the latest data,
    the guard on missing data, the analysis, the second online check
    and the status banner.  [now1] is the clock inside [analyze_data],
    [now2] the clock of the second check. *)
Definition main_status (now1 now2 : Z) (store : string -> pyval + string)
    (device_id : string) (auto_refresh : bool)
  : result (list element * flow) :=
  let '(latest_data, shown) := get_latest_data store device_id in
  let page := map Shown shown in
  let halt := if auto_refresh then Rerun else Stop in
  if negb (truthy latest_data) then
    Ok ((page ++ [Warn "No sensor data available. Make sure the IoT device is sending data to Firebase."])%list,
        halt)
  else
    '(status, message, color) <- analyze_data now1 latest_data ;
    is_online <- is_sensor_online now2 latest_data 30 ;
    if match status with OFFLINE => true | _ => false end || negb is_online then
      Ok ((page ++ offline_page)%list, halt)
    else
      let banner :=
        match status with
        | CRITICAL => alert "alert-critical" ("üî¥ CRITICAL ALERT: " +:+ message)
        | WARNING => alert "alert-warning" ("üü° WARNING: " +:+ message)
        | _ => alert "alert-safe" ("üü¢ System Status: " +:+ message)
        end in
      Ok ((page ++ [banner; Shown (Markdown "")])%list, Continue).

(** The caption under the banner.  [strftime_local] stands for
    [datetime.fromtimestamp(t).strftime('%Y-%m-%d %H:%M:%S')], which
    depends on the time zone of the process and raises [ValueError],
    [OverflowError] or [OSError] for a time it cannot represent. *)
Definition last_update_caption (strftime_local : pyval -> result string)
    (latest_data : pyval) : result (list element) :=
  timestamp <- py_get latest_data "timestamp" (PInt 0) ;
  positive <- py_gt timestamp 0 ;
  if positive then
    unix <- py_gt timestamp 1000000000 ;
    if unix then
      last_update <- strftime_local timestamp ;
      Ok [Caption ("üì° Last update: " +:+ last_update)]
    else
      Ok [Caption ("üì° Sensor uptime: " +:+ py_str timestamp +:+ " seconds")]
  else Ok [].

(** The label of the gas card. *)
Definition gas_status (gas : pyval) : result string :=
  low <- py_lt gas 500 ;
  if low then Ok "Safe"
  else
    mid <- py_lt gas 800 ;
    if mid then Ok "Elevated" else Ok "Danger".

(** The recommendation of the energy section from the motion flag, the
    air-conditioning flag and the temperature. *)
Definition energy_tip (motion ac_status temp : pyval) : result (list element) :=
  if negb (truthy motion) && truthy ac_status then
    Ok [Warn "**Energy Saving Tip:** Lab is empty but AC is ON. Consider turning it off."]
  else
    comfort <- (if truthy motion && negb (truthy ac_status)
                then py_gt temp 26 else Ok false) ;
    if comfort then
      Ok [Info "**Comfort Tip:** Lab is occupied and temperature is high. Consider turning AC on."]
    else Ok [].

(** The gas label that goes with a level of the threshold table. *)
Definition gas_label (lv : level) : string :=
  match lv with
  | Normal => "Safe"
  | Warning => "Elevated"
  | Critical => "Danger"
  end.

(** The timestamp of a reading is read as an epoch second: a number
    above 1,000,000,000. *)
Definition epoch_stamped (data : pyval) : Prop :=
  exists m ts, data = PDict m /\ m !! "timestamp" = Some ts /\
    is_number ts = true /\ exceeds (qval ts) 1000000000 = true.

(** A reading with a dangerous gas level and nothing else. *)
Definition gas_only : gmap string pyval :=
  list_to_map [("gas_ppm", PInt 900); ("motion_detected", PBool true)].

(** A safe reading whose timestamp is a string. *)
Definition misstamped : gmap string pyval :=
  list_to_map (("timestamp", PStr "noon") :: safe_fields).

Definition no_outage (path : string) : option string := None.

(** A local-time formatting that fails as [datetime.fromtimestamp] does
    for a year after 9999, and a safe reading stamped that far ahead. *)
Definition failing_strftime (t : pyval) : result string := Raise ValueError.

Definition far_stamped : gmap string pyval :=
  list_to_map (("timestamp", PInt 1700000000000) :: safe_fields).

(** [r] is the reason of tier [lv] of one of the metrics [ms]: that
    metric is at level [lv] of the threshold table, and [r] is its
    label for [lv], its value as [str] prints it and its unit. *)
Definition reason_for (lv : level) (ms : list (metric * pyval)) (r : string)
  : Prop :=
  exists k v, In (k, v) ms /\ metric_level k (qval v) = lv /\
    r = (reason_label k lv +:+ py_str v +:+ reason_unit k).

(** Where the age [now - timestamp] decides the staleness test as in
    Python: always for an [int] timestamp, whose difference is exact;
    for a float timestamp while the clock is a non-negative integer
    below 2^53 and the timeout is non-negative and under 10^9, where
    the rounding of the difference cannot carry it across the
    timeout. *)
Definition exact_age (now timeout : Z) (ts : pyval) : Prop :=
  (exists z, ts = PInt z) \/
  (0 <= now < 2 ^ 53 /\ 0 <= timeout < 1000000000).

(** A safe reading stamped half a second after the epoch second
    1700000000. *)
Definition float_stamped : gmap string pyval :=
  list_to_map (("timestamp", PFloat 17000000005 1) :: safe_fields).

(** A reading that is safe but for a temperature of 27. *)
Definition warm : gmap string pyval :=
  <["temperature" := PInt 27]> (list_to_map safe_fields).

(** A database that answers every path with the safe reading stamped
    with the epoch second [ts]. *)
Definition stamped_store (ts : Z) (path : string) : pyval + string :=
  inl (stamped ts).

(** A stand-in for the local-time formatting of a timestamp. *)
Definition sample_strftime (t : pyval) : result string :=
  Ok "2023-11-14 22:13:20".

(** What the summary may show for one lab: the offline line, alone or
    after the report of a failed fetch, or the line of a tier other
    than UNKNOWN. *)
Definition summary_entry (lab_id : string) (sec : list widget) : Prop :=
  sec = [offline_line lab_id] \/
  (exists e, sec = [ErrorBox ("Error fetching data: " +:+ e); offline_line lab_id]) \/
  (exists status, status <> UNKNOWN /\ sec = [status_line lab_id status]).

(** A database holding a reading with a string for a temperature. *)
Definition broken_store (path : string) : pyval + string :=
  if String.eqb path "/devices/sensor_node_02/latest"
  then inl (with_metric "temperature" (PStr "hot"))
  else inl (reading safe_fields).

Definition is_dict (v : pyval) : bool :=
  match v with
  | PDict _ => true
  | _ => false
  end.

(** ** Numbers and comparisons *)

Lemma pow10_pos (s : nat) : Zpos (pow10 s) = 10 ^ Z.of_nat s.
Proof.
  unfold pow10. rewrite Z2Pos.id; [reflexivity|].
  apply Z.pow_pos_nonneg; lia.
Qed.

Lemma exceeds_iff (x : Q) (k : Z) : exceeds x k = true <-> (inject_Z k < x)%Q.
Proof.
  unfold exceeds. rewrite negb_true_iff, <- not_true_iff_false, Qle_bool_iff.
  split; [apply Qnot_le_lt | apply Qlt_not_le].
Qed.

Lemma under_iff (x : Q) (k : Z) : under x k = true <-> (x < inject_Z k)%Q.
Proof.
  unfold under. rewrite negb_true_iff, <- not_true_iff_false, Qle_bool_iff.
  split; [apply Qnot_le_lt | apply Qlt_not_le].
Qed.

Lemma py_gt_number (v : pyval) (k : Z) :
  is_number v = true -> py_gt v k = Ok (exceeds (qval v) k).
Proof.
  unfold is_number, py_gt, py_cmp, qval, exceeds, Qle_bool.
  destruct (num_of v) as [[m s]|]; [intros _|discriminate].
  cbn [bind Qnum Qden inject_Z]. rewrite pow10_pos. f_equal.
  destruct (Z.compare_spec m (k * 10 ^ Z.of_nat s));
    destruct (Z.leb_spec (m * 1) (k * 10 ^ Z.of_nat s)); simpl; try reflexivity; lia.
Qed.

Lemma py_lt_number (v : pyval) (k : Z) :
  is_number v = true -> py_lt v k = Ok (under (qval v) k).
Proof.
  unfold is_number, py_lt, py_cmp, qval, under, Qle_bool.
  destruct (num_of v) as [[m s]|]; [intros _|discriminate].
  cbn [bind Qnum Qden inject_Z]. rewrite pow10_pos. f_equal.
  destruct (Z.compare_spec m (k * 10 ^ Z.of_nat s));
    destruct (Z.leb_spec (k * 10 ^ Z.of_nat s) (m * 1)); simpl; try reflexivity; lia.
Qed.

Lemma py_gt_not_number (v : pyval) (k : Z) :
  is_number v = false -> py_gt v k = Raise TypeError.
Proof.
  unfold is_number, py_gt, py_cmp. destruct (num_of v) as [[m s]|]; [discriminate|reflexivity].
Qed.

Lemma py_or_ok (a b : bool) : py_or (Ok a) (Ok b) = Ok (a || b).
Proof. destruct a; reflexivity. Qed.

(** ** The threshold checks against the specification's table *)

Lemma analyze_issues_spec (temp humidity gas_ppm : pyval) :
  is_number temp = true -> is_number humidity = true -> is_number gas_ppm = true ->
  analyze_issues temp humidity gas_ppm =
  Ok (reasons_at Critical (readings temp humidity gas_ppm),
      reasons_at Warning (readings temp humidity gas_ppm)).
Proof.
  intros Ht Hh Hg. unfold analyze_issues.
  rewrite !(py_gt_number temp), !(py_lt_number temp) by assumption.
  rewrite !(py_gt_number humidity), !(py_lt_number humidity) by assumption.
  rewrite !(py_gt_number gas_ppm) by assumption.
  rewrite !py_or_ok.
  unfold reasons_at, readings, metric_level, reason.
  cbn [flat_map bind reason_label reason_unit].
  destruct (exceeds (qval temp) 30 || under (qval temp) 10),
    (exceeds (qval temp) 26 || under (qval temp) 18),
    (exceeds (qval humidity) 70 || under (qval humidity) 20),
    (exceeds (qval humidity) 60 || under (qval humidity) 30),
    (exceeds (qval gas_ppm) 800), (exceeds (qval gas_ppm) 500);
  reflexivity.
Qed.

(** A value that is not a number never reaches the f-strings: the
    comparison before them raises. *)
Lemma analyze_issues_numbers (temp humidity gas_ppm : pyval)
    (r : list string * list string) :
  analyze_issues temp humidity gas_ppm = Ok r ->
  is_number temp = true /\ is_number humidity = true /\ is_number gas_ppm = true.
Proof.
  unfold analyze_issues.
  destruct (is_number temp) eqn:Ht;
    [|rewrite (py_gt_not_number temp 30 Ht); discriminate].
  rewrite !(py_gt_number temp), !(py_lt_number temp), !py_or_ok by assumption.
  cbn [bind].
  destruct (is_number humidity) eqn:Hh;
    [|rewrite (py_gt_not_number humidity 70 Hh);
      destruct (exceeds (qval temp) 30 || under (qval temp) 10),
        (exceeds (qval temp) 26 || under (qval temp) 18); discriminate].
  rewrite !(py_gt_number humidity), !(py_lt_number humidity), !py_or_ok by assumption.
  destruct (is_number gas_ppm) eqn:Hg; [intros _; repeat split|].
  rewrite !(py_gt_not_number gas_ppm) by assumption.
  destruct (exceeds (qval temp) 30 || under (qval temp) 10),
    (exceeds (qval temp) 26 || under (qval temp) 18),
    (exceeds (qval humidity) 70 || under (qval humidity) 20),
    (exceeds (qval humidity) 60 || under (qval humidity) 30); discriminate.
Qed.

Lemma online_truthy (now : Z) (data : pyval) (timeout : Z) :
  is_sensor_online now data timeout = Ok true -> truthy data = true.
Proof.
  unfold is_sensor_online. destruct (truthy data); [reflexivity|discriminate].
Qed.

Lemma analyze_data_online (now : Z) (m : gmap string pyval) :
  is_sensor_online now (PDict m) 30 = Ok true ->
  numeric_metrics m ->
  analyze_data now (PDict m) =
  Ok (report (spec_classify (metric_of m "temperature") (metric_of m "humidity")
                            (metric_of m "gas_ppm"))).
Proof.
  intros Hon (Ht & Hh & Hg). unfold analyze_data.
  rewrite (online_truthy _ _ _ Hon), Hon. cbn [negb bind py_get].
  fold (metric_of m "temperature") (metric_of m "humidity") (metric_of m "gas_ppm").
  rewrite analyze_issues_spec by assumption. unfold spec_classify, report.
  destruct (reasons_at Critical _) as [|c cs]; [|reflexivity].
  destruct (reasons_at Warning _) as [|w ws]; reflexivity.
Qed.

Lemma reasons_at_nonempty (lv : level) (ms : list (metric * pyval)) :
  lv <> Normal -> (reasons_at lv ms <> [] <-> Exists (at_level lv) ms).
Proof.
  intros Hlv. induction ms as [|[k v] ms IH]; simpl.
  - split; [congruence | intros H; inversion H].
  - unfold at_level at 1. rewrite Exists_cons. simpl.
    destruct (metric_level k (qval v)) eqn:E, lv; simpl; try congruence;
      try (split; [intros _; left; reflexivity | discriminate]);
      rewrite IH; unfold at_level; (split; [tauto | intros [?|?]; [congruence | assumption]]).
Qed.

Lemma reasons_at_level (lv : level) (ms : list (metric * pyval)) :
  Forall (reason_of_level lv) (reasons_at lv ms).
Proof.
  induction ms as [|[k v] ms IH]; simpl; [constructor|].
  destruct (level_eqb _ lv); simpl; [constructor; [exists k, v; reflexivity|]|]; exact IH.
Qed.

Lemma critical_not_warning (r : string) :
  reason_of_level Critical r -> ~ reason_of_level Warning r.
Proof.
  intros (k & v & ->) (k' & v' & H).
  destruct k, k'; unfold reason in H; simpl in H; discriminate.
Qed.

(** ** The status aggregator *)

(** C1, as stated, fails: [analyze_data] has no timeout argument and
    always checks against 30 seconds, so a reading that
    [is_sensor_online] rejects for a timeout of 10 seconds is still
    classified, and the message of an offline sensor is not the single
    reason "sensor not responding". *)
Lemma analyze_data_fixed_timeout :
  is_sensor_online 1700000020 (stamped 1700000000) 10 = Ok false /\
  analyze_data 1700000020 (stamped 1700000000) =
    Ok (SAFE, "All parameters within safe range", "green") /\
  is_sensor_online 1700000100 (stamped 1700000000) 30 = Ok false /\
  analyze_data 1700000100 (stamped 1700000000) <>
    Ok (OFFLINE, "sensor not responding", "gray").
Proof.
  repeat split; try (vm_compute; reflexivity).
  vm_compute. discriminate.
Qed.

(** C1 (amended): [analyze_data] takes no timeout.  For every reading
    and clock it returns UNKNOWN with the message "No data available"
    when the reading is absent (falsy); otherwise OFFLINE with the
    message "Sensor not responding - simulator may be stopped" when
    [is_sensor_online] with the default timeout of 30 seconds is false;
    otherwise, for a dictionary whose metrics are numbers, exactly the
    tier and the reasons of the threshold classifier, the reasons joined
    by " | ". *)
Theorem analyze_data_cases (now : Z) (data : pyval) :
  (truthy data = false ->
   analyze_data now data = Ok (UNKNOWN, "No data available", "gray")) /\
  (truthy data = true -> is_sensor_online now data 30 = Ok false ->
   analyze_data now data =
   Ok (OFFLINE, "Sensor not responding - simulator may be stopped", "gray")) /\
  (forall m, data = PDict m -> is_sensor_online now data 30 = Ok true ->
   numeric_metrics m ->
   analyze_data now data =
   Ok (report (spec_classify (metric_of m "temperature") (metric_of m "humidity")
                             (metric_of m "gas_ppm")))).
Proof.
  split; [|split].
  - intros H. unfold analyze_data. rewrite H. reflexivity.
  - intros H Hoff. unfold analyze_data. rewrite H, Hoff. reflexivity.
  - intros m -> Hon Hnum. apply analyze_data_online; assumption.
Qed.

Lemma analyze_data_cases_witness :
  analyze_data 0 PNone = Ok (UNKNOWN, "No data available", "gray") /\
  analyze_data 1700000100 (stamped 1700000000) =
    Ok (OFFLINE, "Sensor not responding - simulator may be stopped", "gray") /\
  analyze_data 1700000020 (stamped 1700000000) =
    Ok (report (spec_classify (PInt 22) (PInt 45) (PInt 100))).
Proof.
  split; [|split].
  - apply (proj1 (analyze_data_cases 0 PNone)). reflexivity.
  - apply (proj1 (proj2 (analyze_data_cases 1700000100 (stamped 1700000000))));
      vm_compute; reflexivity.
  - etransitivity;
      [apply (proj2 (proj2 (analyze_data_cases 1700000020 (stamped 1700000000)))
                (list_to_map (("timestamp", PInt 1700000000) :: safe_fields)));
       [reflexivity | vm_compute; reflexivity | split; [|split]; vm_compute; reflexivity]
      | vm_compute; reflexivity].
Defined.

(** ** The threshold classifier *)

(** C2: for every online reading with numeric metrics, if some metric
    is at its critical level the result is CRITICAL and its reasons are
    the critical reasons alone, in the order temperature, humidity,
    gas, none of them a warning reason; if none is critical but some
    metric is at its warning level the result is WARNING with the
    warning reasons in the same order; otherwise it is SAFE with the
    fixed all-safe message. *)
Theorem classify_priority (now : Z) (m : gmap string pyval) :
  is_sensor_online now (PDict m) 30 = Ok true ->
  numeric_metrics m ->
  let ms := readings (metric_of m "temperature") (metric_of m "humidity")
                     (metric_of m "gas_ppm") in
  (Exists (at_level Critical) ms ->
   analyze_data now (PDict m) =
     Ok (CRITICAL, String.concat " | " (reasons_at Critical ms), "red") /\
   Forall (fun r => reason_of_level Critical r /\ ~ reason_of_level Warning r)
          (reasons_at Critical ms)) /\
  (~ Exists (at_level Critical) ms -> Exists (at_level Warning) ms ->
   analyze_data now (PDict m) =
     Ok (WARNING, String.concat " | " (reasons_at Warning ms), "orange") /\
   Forall (reason_of_level Warning) (reasons_at Warning ms)) /\
  (~ Exists (at_level Critical) ms -> ~ Exists (at_level Warning) ms ->
   analyze_data now (PDict m) =
     Ok (SAFE, "All parameters within safe range", "green")).
Proof.
  intros Hon Hnum ms.
  rewrite (analyze_data_online now m Hon Hnum).
  unfold spec_classify, report. fold ms.
  rewrite <- !reasons_at_nonempty by discriminate.
  split; [|split].
  - intros Hc. split.
    + destruct (reasons_at Critical ms); [congruence|reflexivity].
    + eapply Forall_impl; [apply reasons_at_level|].
      intros r Hr. split; [exact Hr | apply critical_not_warning, Hr].
  - intros Hc Hw. split.
    + destruct (reasons_at Critical ms); [|exfalso; apply Hc; discriminate].
      destruct (reasons_at Warning ms); [congruence|reflexivity].
    + apply reasons_at_level.
  - intros Hc Hw.
    destruct (reasons_at Critical ms); [|exfalso; apply Hc; discriminate].
    destruct (reasons_at Warning ms); [reflexivity|exfalso; apply Hw; discriminate].
Qed.

Lemma classify_priority_witness :
  analyze_data 0 (PDict hot_and_humid) =
  Ok (CRITICAL, "Critical Temperature: 35¬∞C", "red").
Proof.
  assert (Hon : is_sensor_online 0 (PDict hot_and_humid) 30 = Ok true)
    by (vm_compute; reflexivity).
  assert (Hnum : numeric_metrics hot_and_humid)
    by (split; [|split]; vm_compute; reflexivity).
  destruct (classify_priority 0 hot_and_humid Hon Hnum) as [Hcrit _].
  destruct Hcrit as [Heq _].
  - apply Exists_cons_hd. vm_compute. reflexivity.
  - rewrite Heq. vm_compute. reflexivity.
Defined.

(** All three metrics critical: the reasons come in the order
    temperature, humidity, gas. *)
Example critical_reasons_in_metric_order :
  analyze_data 0 (reading [("temperature", PInt 35); ("humidity", PInt 80);
                           ("gas_ppm", PInt 900)]) =
  Ok (CRITICAL,
      "Critical Temperature: 35¬∞C | Critical Humidity: 80% | Dangerous Gas Level: 900 ppm",
      "red").
Proof. vm_compute. reflexivity. Qed.

(** ** Threshold boundaries *)

Lemma or_level (a b : bool) (P R : Prop) :
  (a = true <-> P) -> (b = true <-> R) -> (a || b = true <-> P \/ R).
Proof. intros HP HR. rewrite orb_true_iff, HP, HR. reflexivity. Qed.

Lemma band_level (x : Q) (hi lo : Z) :
  exceeds x hi || under x lo = true <-> (inject_Z hi < x \/ x < inject_Z lo)%Q.
Proof. apply or_level; [apply exceeds_iff | apply under_iff]. Qed.

Lemma temperature_row :
  threshold_law Temperature
    (fun x => 30 < x \/ x < 10)%Q (fun x => 26 < x \/ x < 18)%Q
    (fun v => analyze_issues v (PInt 45) (PInt 100)).
Proof.
  intros v Hv. rewrite analyze_issues_spec by (assumption || reflexivity).
  unfold reasons_at, readings. cbn [flat_map].
  change (metric_level Humidity (qval (PInt 45))) with Normal.
  change (metric_level Gas (qval (PInt 100))) with Normal.
  cbn [level_eqb app metric_level].
  generalize (band_level (qval v) 30 10), (band_level (qval v) 26 18).
  destruct (exceeds (qval v) 30 || under (qval v) 10),
    (exceeds (qval v) 26 || under (qval v) 18); intros H1 H2;
    cbn [level_eqb app]; repeat split; intros; try reflexivity;
    exfalso; intuition congruence.
Qed.

Lemma humidity_row :
  threshold_law Humidity
    (fun x => 70 < x \/ x < 20)%Q (fun x => 60 < x \/ x < 30)%Q
    (fun v => analyze_issues (PInt 22) v (PInt 100)).
Proof.
  intros v Hv. rewrite analyze_issues_spec by (assumption || reflexivity).
  unfold reasons_at, readings. cbn [flat_map].
  change (metric_level Temperature (qval (PInt 22))) with Normal.
  change (metric_level Gas (qval (PInt 100))) with Normal.
  cbn [level_eqb app metric_level].
  generalize (band_level (qval v) 70 20), (band_level (qval v) 60 30).
  destruct (exceeds (qval v) 70 || under (qval v) 20),
    (exceeds (qval v) 60 || under (qval v) 30); intros H1 H2;
    cbn [level_eqb app]; repeat split; intros; try reflexivity;
    exfalso; intuition congruence.
Qed.

Lemma gas_row :
  threshold_law Gas (fun x => 800 < x)%Q (fun x => 500 < x)%Q
    (fun v => analyze_issues (PInt 22) (PInt 45) v).
Proof.
  intros v Hv. rewrite analyze_issues_spec by (assumption || reflexivity).
  unfold reasons_at, readings. cbn [flat_map].
  change (metric_level Temperature (qval (PInt 22))) with Normal.
  change (metric_level Humidity (qval (PInt 45))) with Normal.
  cbn [level_eqb app metric_level].
  generalize (exceeds_iff (qval v) 800), (exceeds_iff (qval v) 500).
  destruct (exceeds (qval v) 800), (exceeds (qval v) 500); intros H1 H2;
    cbn [level_eqb app]; repeat split; intros; try reflexivity;
    exfalso; intuition congruence.
Qed.

(** C3: the thresholds are exclusive.  Temperature exactly 30 is not
    critical (it is a warning) while 30.01 is critical; temperature
    exactly 26 raises no warning while 26.01 does; and for each metric
    the check yields the critical reason alone when the value is
    strictly beyond a critical bound, the warning reason alone when it
    is not but is strictly beyond a warning bound, and nothing
    otherwise. *)
Theorem thresholds_exclusive :
  (forall now,
     analyze_data now (with_metric "temperature" (PInt 30)) =
       Ok (WARNING, "Temperature Warning: 30¬∞C", "orange") /\
     analyze_data now (with_metric "temperature" (PFloat 3001 2)) =
       Ok (CRITICAL, "Critical Temperature: 30.01¬∞C", "red") /\
     analyze_data now (with_metric "temperature" (PInt 26)) =
       Ok (SAFE, "All parameters within safe range", "green") /\
     analyze_data now (with_metric "temperature" (PFloat 2601 2)) =
       Ok (WARNING, "Temperature Warning: 26.01¬∞C", "orange")) /\
  threshold_law Temperature
    (fun x => 30 < x \/ x < 10)%Q (fun x => 26 < x \/ x < 18)%Q
    (fun v => analyze_issues v (PInt 45) (PInt 100)) /\
  threshold_law Humidity
    (fun x => 70 < x \/ x < 20)%Q (fun x => 60 < x \/ x < 30)%Q
    (fun v => analyze_issues (PInt 22) v (PInt 100)) /\
  threshold_law Gas (fun x => 800 < x)%Q (fun x => 500 < x)%Q
    (fun v => analyze_issues (PInt 22) (PInt 45) v).
Proof.
  split; [|split; [|split]].
  - intros now. repeat split; vm_compute; reflexivity.
  - exact temperature_row.
  - exact humidity_row.
  - exact gas_row.
Qed.

Lemma thresholds_exclusive_witness :
  analyze_issues (PInt 10) (PInt 45) (PInt 100) =
    Ok ([], ["Temperature Warning: 10¬∞C"]) /\
  analyze_issues (PInt 22) (PInt 45) (PInt 800) =
    Ok ([], ["Elevated Gas Level: 800 ppm"]).
Proof.
  destruct thresholds_exclusive as (_ & Ht & _ & Hg). split.
  - apply (Ht (PInt 10) eq_refl).
    + intros [H|H]; vm_compute in H; discriminate.
    + right. vm_compute. reflexivity.
  - apply (Hg (PInt 800) eq_refl).
    + intros H; vm_compute in H; discriminate.
    + vm_compute. reflexivity.
Defined.

(** ** The staleness detector *)

Lemma dict_truthy (m : gmap string pyval) (k : string) (v : pyval) :
  m !! k = Some v -> truthy (PDict m) = true.
Proof.
  intros H. unfold truthy. rewrite bool_decide_eq_false_2; [reflexivity|].
  intros ->. rewrite lookup_empty in H. discriminate.
Qed.

Lemma py_in_dict (m : gmap string pyval) (k : string) :
  py_in k (PDict m) = Ok (bool_decide (is_Some (m !! k))).
Proof. reflexivity. Qed.

Lemma age_within (now timeout : Z) (ts : pyval) :
  is_number ts = true ->
  (age_seconds <- py_sub now ts ; py_le age_seconds timeout) =
  Ok (Qle_bool (inject_Z now - qval ts) (inject_Z timeout)).
Proof.
  unfold is_number, qval, py_le, py_cmp, Qle_bool.
  destruct ts as [|b|z|fm fs| | | |]; try discriminate; intros _;
    cbn [py_sub bind num_of Qminus Qplus Qopp Qnum Qden inject_Z];
    rewrite ?Pos.mul_1_l, ?pow10_pos; f_equal;
    try change (10 ^ Z.of_nat 0) with 1;
    match goal with
    | |- match ?a ?= ?b with _ => _ end = (?c <=? ?d) =>
        destruct (Z.compare_spec a b); destruct (Z.leb_spec c d);
        try reflexivity; lia
    end.
Qed.

Lemma online_with_timestamp (now timeout : Z) (m : gmap string pyval) (ts : pyval) :
  m !! "timestamp" = Some ts -> is_number ts = true ->
  is_sensor_online now (PDict m) timeout =
  Ok (if exceeds (qval ts) 1000000000
      then Qle_bool (inject_Z now - qval ts) (inject_Z timeout)
      else true).
Proof.
  intros Hts Hnum. unfold is_sensor_online, online_try.
  rewrite (dict_truthy _ _ _ Hts), py_in_dict, Hts.
  rewrite bool_decide_eq_true_2 by eauto.
  cbn [negb bind py_get]. rewrite Hts.
  change (default (PInt 0) (Some ts)) with ts.
  rewrite py_gt_number by assumption. cbn [bind].
  destruct (exceeds (qval ts) 1000000000); [|reflexivity].
  rewrite age_within by assumption. reflexivity.
Qed.

(** C4: [is_sensor_online] is false for an absent reading; with a
    numeric timestamp above 1,000,000,000 it is true exactly when
    [now - timestamp <= timeout], for every timeout when the timestamp
    is an [int] and, when it is a float, within the bounds of
    [exact_age], where Python's rounding of the difference does not
    decide the test; a timestamp in the future passes any non-negative
    timeout; with a numeric timestamp of at most 1,000,000,000 it is
    true; and without a timestamp field it is true exactly when a
    temperature or a humidity field is present. *)
Theorem is_sensor_online_cases (now timeout : Z) :
  (forall data, truthy data = false ->
     is_sensor_online now data timeout = Ok false) /\
  (forall m ts, m !! "timestamp" = Some ts -> is_number ts = true ->
     (1000000000 < qval ts)%Q ->
     (exact_age now timeout ts ->
      is_sensor_online now (PDict m) timeout =
        Ok (Qle_bool (inject_Z now - qval ts) (inject_Z timeout))) /\
     ((inject_Z now < qval ts)%Q -> 0 <= timeout ->
      is_sensor_online now (PDict m) timeout = Ok true)) /\
  (forall m ts, m !! "timestamp" = Some ts -> is_number ts = true ->
     (qval ts <= 1000000000)%Q ->
     is_sensor_online now (PDict m) timeout = Ok true) /\
  (forall m, m !! "timestamp" = None ->
     is_sensor_online now (PDict m) timeout =
       Ok (bool_decide (is_Some (m !! "temperature")) ||
           bool_decide (is_Some (m !! "humidity")))).
Proof.
  split; [|split; [|split]].
  - intros data H. unfold is_sensor_online. rewrite H. reflexivity.
  - intros m ts Hts Hnum Hbig.
    rewrite (online_with_timestamp now timeout m ts Hts Hnum).
    apply exceeds_iff in Hbig. rewrite Hbig. split; [reflexivity|].
    intros Hfut Htm. f_equal. apply Qle_bool_iff.
    apply Qle_trans with (y := inject_Z 0).
    + apply Qlt_le_weak. rewrite <- (Qplus_opp_r (qval ts)).
      unfold Qminus. apply Qplus_lt_l. exact Hfut.
    + rewrite <- Zle_Qle. exact Htm.
  - intros m ts Hts Hnum Hsmall.
    rewrite (online_with_timestamp now timeout m ts Hts Hnum).
    destruct (exceeds (qval ts) 1000000000) eqn:E; [|reflexivity].
    apply exceeds_iff in E. exfalso. exact (Qlt_not_le _ _ E Hsmall).
  - intros m Hts. unfold is_sensor_online, online_try, truthy.
    destruct (decide (m = ∅)) as [->|Hne].
    + rewrite bool_decide_eq_true_2 by reflexivity.
      rewrite !lookup_empty, !bool_decide_eq_false_2 by (intros [? ?]; discriminate).
      reflexivity.
    + rewrite bool_decide_eq_false_2 by assumption.
      rewrite !py_in_dict, Hts, py_or_ok.
      rewrite bool_decide_eq_false_2 by (intros [? ?]; discriminate).
      reflexivity.
Qed.

Lemma is_sensor_online_cases_witness :
  is_sensor_online 1700000100 PNone 30 = Ok false /\
  is_sensor_online 1700000100 (stamped 1700000000) 30 = Ok false /\
  is_sensor_online 1700000020 (PDict float_stamped) 30 = Ok true /\
  is_sensor_online 1700000100 (stamped 1700000500) 30 = Ok true /\
  is_sensor_online 1700000100 (stamped 1234) 30 = Ok true /\
  is_sensor_online 1700000100 (reading safe_fields) 30 = Ok true.
Proof.
  destruct (is_sensor_online_cases 1700000100 30) as (Habs & Hunix & Hboot & Hnone).
  split; [|split; [|split; [|split; [|split]]]].
  - apply Habs. reflexivity.
  - refine (eq_trans (proj1 (Hunix _ (PInt 1700000000) _ _ _) _) _);
      [vm_compute; reflexivity .. | left; eexists; reflexivity
      | vm_compute; reflexivity].
  - refine (eq_trans
              (proj1 (proj1 (proj2 (is_sensor_online_cases 1700000020 30))
                        float_stamped (PFloat 17000000005 1) _ _ _) _) _);
      [vm_compute; reflexivity .. | right | vm_compute; reflexivity].
    repeat split; vm_compute; (reflexivity || discriminate).
  - refine (proj2 (Hunix _ (PInt 1700000500) _ _ _) _ _);
      vm_compute; try reflexivity; discriminate.
  - refine (Hboot _ (PInt 1234) _ _ _); vm_compute; try reflexivity; discriminate.
  - etransitivity.
    + apply Hnone. vm_compute. reflexivity.
    + vm_compute. reflexivity.
Defined.

Lemma is_sensor_online_ok (now : Z) (data : pyval) (timeout : Z) :
  exists b, is_sensor_online now data timeout = Ok b.
Proof.
  unfold is_sensor_online. destruct (truthy data); [|eauto].
  destruct (online_try now data timeout); simpl; eauto.
Qed.

(** C5: [is_sensor_online] never raises, whatever the shape of the
    reading, and when the inspection of a present reading fails
    internally the answer is [True]. *)
Theorem is_sensor_online_never_raises (now : Z) (data : pyval) (timeout : Z) :
  (exists b, is_sensor_online now data timeout = Ok b) /\
  (truthy data = true -> forall e, online_try now data timeout = Raise e ->
   is_sensor_online now data timeout = Ok true).
Proof.
  split; [apply is_sensor_online_ok|].
  unfold is_sensor_online. intros -> e ->. reflexivity.
Qed.

Lemma is_sensor_online_never_raises_witness :
  is_sensor_online 0 (PInt 5) 30 = Ok true /\
  is_sensor_online 0 (reading [("timestamp", PStr "noon")]) 30 = Ok true.
Proof.
  split.
  - apply (proj2 (is_sensor_online_never_raises 0 (PInt 5) 30) eq_refl TypeError).
    reflexivity.
  - apply (proj2 (is_sensor_online_never_raises 0 _ 30)) with (e := TypeError);
      vm_compute; reflexivity.
Defined.

(** ** Missing and wrong-typed fields *)

Lemma metric_of_insert_missing (m : gmap string pyval) (key k : string) :
  m !! key = None -> metric_of (<[key := PInt 0]> m) k = metric_of m k.
Proof.
  intros H. unfold metric_of. destruct (decide (key = k)) as [<-|Hne].
  - rewrite lookup_insert_eq, H. reflexivity.
  - rewrite lookup_insert_ne by assumption. reflexivity.
Qed.

Lemma metric_of_insert_other (m : gmap string pyval) (key k : string) (v : pyval) :
  key <> k -> metric_of (<[key := v]> m) k = metric_of m k.
Proof. intros H. unfold metric_of. rewrite lookup_insert_ne by assumption. reflexivity. Qed.

Lemma present_after_insert (m : gmap string pyval) (key k : string) (v : pyval) :
  bool_decide (is_Some (m !! k)) = true ->
  bool_decide (is_Some (<[key := v]> m !! k)) = true.
Proof.
  rewrite !bool_decide_eq_true. intros H.
  destruct (decide (key = k)) as [<-|Hne].
  - rewrite lookup_insert_eq. eauto.
  - rewrite lookup_insert_ne by assumption. exact H.
Qed.

Lemma online_insert (now timeout : Z) (m : gmap string pyval) (key : string) (v : pyval) :
  key <> "timestamp" ->
  is_sensor_online now (PDict m) timeout = Ok true ->
  is_sensor_online now (PDict (<[key := v]> m)) timeout = Ok true.
Proof.
  intros Hkey. unfold is_sensor_online, online_try, truthy.
  rewrite (bool_decide_eq_false_2 (<[key := v]> m = ∅)) by apply insert_non_empty.
  destruct (bool_decide (m = ∅)); [discriminate|].
  cbn [negb]. rewrite !py_in_dict, !py_or_ok.
  cbn [py_get bind]. rewrite lookup_insert_ne by assumption.
  destruct (bool_decide (is_Some (m !! "timestamp"))); [trivial|].
  cbn [try_except]. intros H. injection H as H. f_equal.
  apply orb_true_iff in H. apply orb_true_iff.
  destruct H as [H|H]; [left|right]; apply present_after_insert, H.
Qed.

(** C6, as stated, fails: a metric of the wrong type is not coerced but
    raises at the first comparison, and a reading that is not a
    dictionary raises at [data.get]. *)
Lemma wrong_type_raises :
  analyze_data 0 (with_metric "temperature" (PStr "hot")) = Raise TypeError /\
  analyze_data 0 (with_metric "gas_ppm" PNone) = Raise TypeError /\
  analyze_data 0 (PList [PStr "temperature"]) = Raise AttributeError.
Proof. repeat split; vm_compute; reflexivity. Qed.

(** C6 (amended): for every dictionary reading whose temperature,
    humidity and gas fields, where present, hold numbers, the
    classifier does not raise; a missing metric is read as 0 and a
    missing motion flag as [False]: adding the default 0 for a missing
    metric to an online reading leaves the result unchanged, and the
    motion flag, whatever it holds, does not enter the result. *)
Theorem missing_fields_coerced (now : Z) (m : gmap string pyval) :
  numeric_metrics m ->
  (exists r, analyze_data now (PDict m) = Ok r) /\
  (is_sensor_online now (PDict m) 30 = Ok true ->
   (forall key, key ∈ ["temperature"; "humidity"; "gas_ppm"] ->
      m !! key = None ->
      analyze_data now (PDict (<[key := PInt 0]> m)) = analyze_data now (PDict m)) /\
   (forall motion,
      analyze_data now (PDict (<["motion_detected" := motion]> m)) =
      analyze_data now (PDict m))).
Proof.
  intros Hnum. split.
  - destruct (is_sensor_online_ok now (PDict m) 30) as [[|] Hb].
    + rewrite (analyze_data_online now m Hb Hnum). eauto.
    + unfold analyze_data. rewrite Hb. destruct (truthy (PDict m)); simpl; eauto.
  - intros Hon. rewrite (analyze_data_online now m Hon Hnum). split.
    + intros key Hkey Hnone.
      assert (Hne : key <> "timestamp")
        by (set_unfold in Hkey; intuition (subst; discriminate)).
      rewrite analyze_data_online.
      * rewrite !metric_of_insert_missing by assumption. reflexivity.
      * apply online_insert; assumption.
      * unfold numeric_metrics.
        rewrite !metric_of_insert_missing by assumption. exact Hnum.
    + intros motion. rewrite analyze_data_online.
      * rewrite !metric_of_insert_other by discriminate. reflexivity.
      * apply online_insert; [discriminate|assumption].
      * unfold numeric_metrics.
        rewrite !metric_of_insert_other by discriminate. exact Hnum.
Qed.

Lemma missing_fields_coerced_witness :
  (exists r, analyze_data 0 (PDict climate_only) = Ok r) /\
  analyze_data 0 (PDict (<["gas_ppm" := PInt 0]> climate_only)) =
    analyze_data 0 (PDict climate_only) /\
  analyze_data 0 (PDict (<["motion_detected" := PBool false]> climate_only)) =
    analyze_data 0 (PDict climate_only).
Proof.
  assert (Hnum : numeric_metrics climate_only)
    by (split; [|split]; vm_compute; reflexivity).
  assert (Hon : is_sensor_online 0 (PDict climate_only) 30 = Ok true)
    by (vm_compute; reflexivity).
  split; [|split].
  - exact (proj1 (missing_fields_coerced 0 climate_only Hnum)).
  - refine (proj1 (proj2 (missing_fields_coerced 0 climate_only Hnum) Hon)
              "gas_ppm" _ _).
    + repeat constructor.
    + vm_compute. reflexivity.
  - exact (proj2 (proj2 (missing_fields_coerced 0 climate_only Hnum) Hon)
             (PBool false)).
Defined.

(** ** Reason strings *)

Lemma label_names_metric (k : metric) (lv : level) :
  is_substring (metric_name k) (reason_label k lv) = true.
Proof. destruct k, lv; vm_compute; reflexivity. Qed.

(** C7, as stated, fails: the value is interpolated as Python prints
    it, not rounded.  A temperature of 30.01 appears with two decimals
    and a gas level of 900.7 with its fraction, where the rounded forms
    are 30.0 and 901; and the same number held as the int 35 and as the
    float 35.0 gives two different strings. *)
Lemma reasons_not_rounded :
  analyze_issues (PFloat 3001 2) (PInt 45) (PFloat 9007 1) =
    Ok (["Critical Temperature: 30.01¬∞C"; "Dangerous Gas Level: 900.7 ppm"], []) /\
  spec_reason Temperature Critical (PFloat 3001 2) = "Critical Temperature: 30.0¬∞C" /\
  spec_reason Gas Critical (PFloat 9007 1) = "Dangerous Gas Level: 901 ppm" /\
  (qval (PInt 35) == qval (PFloat 350 1))%Q /\
  analyze_issues (PInt 35) (PInt 45) (PInt 100) =
    Ok (["Critical Temperature: 35¬∞C"], []) /\
  analyze_issues (PFloat 350 1) (PInt 45) (PInt 100) =
    Ok (["Critical Temperature: 35.0¬∞C"], []).
Proof. repeat split; vm_compute; reflexivity. Qed.

Lemma level_eqb_eq (a b : level) : level_eqb a b = true -> a = b.
Proof. destruct a, b; (reflexivity || discriminate). Qed.

Lemma reasons_at_for (lv : level) (ms : list (metric * pyval)) :
  Forall (reason_for lv ms) (reasons_at lv ms).
Proof.
  apply List.Forall_forall. intros r. unfold reasons_at.
  rewrite in_flat_map. intros ([k v] & Hin & Hr).
  destruct (level_eqb (metric_level k (qval v)) lv) eqn:Hlv;
    simpl in Hr; [|contradiction].
  destruct Hr as [<-|[]]. exists k, v.
  split; [exact Hin|split; [apply level_eqb_eq, Hlv|reflexivity]].
Qed.

Lemma append_cancel_l (p a b : string) : p +:+ a = p +:+ b -> a = b.
Proof.
  induction p as [|c p IH]; intros H; [exact H|].
  change (String c (p +:+ a) = String c (p +:+ b)) in H.
  injection H as H. apply IH, H.
Qed.

Lemma length_append (a b : string) :
  String.length (a +:+ b) = (String.length a + String.length b)%nat.
Proof.
  induction a as [|c a IH]; [reflexivity|].
  change (S (String.length (a +:+ b)) = S (String.length a + String.length b)).
  rewrite IH. reflexivity.
Qed.

Lemma append_cancel_r (a b u : string) : a +:+ u = b +:+ u -> a = b.
Proof.
  revert b. induction a as [|c a IH]; intros [|c' b] H.
  - reflexivity.
  - apply (f_equal String.length) in H.
    rewrite !length_append in H. simpl in H. lia.
  - apply (f_equal String.length) in H.
    rewrite !length_append in H. simpl in H. lia.
  - change (String c (a +:+ u) = String c' (b +:+ u)) in H.
    injection H as -> H. f_equal. apply IH, H.
Qed.

(** C7 (amended): every reason string produced by the threshold checks
    is, for a critical issue, the critical label of a metric that is at
    its critical level and, for a warning, the warning label of a
    metric that is at its warning level, followed by that metric's
    value exactly as Python's [str] prints it, without rounding, and by
    the unit; every label contains the name of its metric; and two
    values give the same reason exactly when [str] prints them alike. *)
Theorem reasons_embed_value (temp humidity gas_ppm : pyval) :
  is_number temp = true -> is_number humidity = true -> is_number gas_ppm = true ->
  exists critical_issues warnings,
    analyze_issues temp humidity gas_ppm = Ok (critical_issues, warnings) /\
    Forall (reason_for Critical (readings temp humidity gas_ppm)) critical_issues /\
    Forall (reason_for Warning (readings temp humidity gas_ppm)) warnings /\
    (forall k lv, is_substring (metric_name k) (reason_label k lv) = true) /\
    (forall k lv v v',
       reason_label k lv +:+ py_str v +:+ reason_unit k =
       reason_label k lv +:+ py_str v' +:+ reason_unit k <->
       py_str v = py_str v').
Proof.
  intros Ht Hh Hg. rewrite analyze_issues_spec by assumption.
  eexists _, _. split; [reflexivity|].
  split; [apply reasons_at_for|]. split; [apply reasons_at_for|].
  split; [apply label_names_metric|].
  intros k lv v v'. split.
  - intros H. apply append_cancel_l in H. apply append_cancel_r in H. exact H.
  - intros ->. reflexivity.
Qed.

Lemma reasons_embed_value_witness :
  exists critical_issues warnings,
    analyze_issues (PFloat 3001 2) (PInt 65) PNegZero =
      Ok (critical_issues, warnings) /\
    Forall (reason_for Critical (readings (PFloat 3001 2) (PInt 65) PNegZero))
           critical_issues /\
    Forall (reason_for Warning (readings (PFloat 3001 2) (PInt 65) PNegZero))
           warnings /\
    (forall k lv, is_substring (metric_name k) (reason_label k lv) = true) /\
    (forall k lv v v',
       reason_label k lv +:+ py_str v +:+ reason_unit k =
       reason_label k lv +:+ py_str v' +:+ reason_unit k <->
       py_str v = py_str v').
Proof.
  apply (reasons_embed_value (PFloat 3001 2) (PInt 65) PNegZero); reflexivity.
Defined.

(** ** Dependence on the clock *)

(** C8, as stated, fails: [is_sensor_online] reads the clock, so the
    same reading is SAFE twenty seconds after its timestamp and OFFLINE
    a hundred seconds after it. *)
Lemma analyze_data_reads_clock :
  analyze_data 1700000020 (stamped 1700000000) =
    Ok (SAFE, "All parameters within safe range", "green") /\
  analyze_data 1700000100 (stamped 1700000000) =
    Ok (OFFLINE, "Sensor not responding - simulator may be stopped", "gray").
Proof. split; vm_compute; reflexivity. Qed.

Lemma online_clock_free (now1 now2 timeout : Z) (data : pyval) :
  ~ epoch_stamped data ->
  is_sensor_online now1 data timeout = is_sensor_online now2 data timeout.
Proof.
  intros Hne. unfold is_sensor_online, online_try.
  destruct (truthy data); [|reflexivity]. cbn [negb].
  destruct data as [|b|z|fm fs|s|l|m|]; try reflexivity.
  rewrite !py_in_dict. cbn [bind py_get].
  destruct (m !! "timestamp") as [ts|] eqn:Hts.
  - rewrite bool_decide_eq_true_2 by eauto.
    change (default (PInt 0) (Some ts)) with ts.
    destruct (is_number ts) eqn:Hnum.
    + rewrite py_gt_number by assumption. cbn [bind].
      destruct (exceeds (qval ts) 1000000000) eqn:Hex; [|reflexivity].
      exfalso. apply Hne. exists m, ts. auto.
    + rewrite py_gt_not_number by assumption. reflexivity.
  - rewrite bool_decide_eq_false_2 by (intros [? ?]; discriminate). reflexivity.
Qed.

Lemma online_not_offline (now : Z) (data : pyval) (msg color : string) :
  is_sensor_online now data 30 = Ok true ->
  analyze_data now data <> Ok (OFFLINE, msg, color).
Proof.
  intros Hon. unfold analyze_data.
  rewrite (online_truthy _ _ _ Hon), Hon. cbn [negb bind].
  destruct (py_get data "temperature" (PInt 0)) as [temp|]; [|discriminate].
  destruct (py_get data "humidity" (PInt 0)) as [humidity|]; [|discriminate].
  destruct (py_get data "gas_ppm" (PInt 0)) as [gas_ppm|]; [|discriminate].
  destruct (py_get data "motion_detected" (PBool false)); [|discriminate].
  cbn [bind].
  destruct (analyze_issues temp humidity gas_ppm) as [[[|c cs] [|w ws]]|];
    discriminate.
Qed.

Lemma same_online_same_result (data : pyval) (now1 now2 : Z) :
  analyze_data now1 data = analyze_data now2 data <->
  is_sensor_online now1 data 30 = is_sensor_online now2 data 30.
Proof.
  split.
  - intros Heq.
    destruct (is_sensor_online_ok now1 data 30) as [b1 H1].
    destruct (is_sensor_online_ok now2 data 30) as [b2 H2].
    rewrite H1, H2. destruct b1, b2; try reflexivity; exfalso.
    + assert (Hoff : analyze_data now2 data =
                     Ok (OFFLINE, "Sensor not responding - simulator may be stopped",
                         "gray")).
      { unfold analyze_data. rewrite (online_truthy _ _ _ H1), H2. reflexivity. }
      rewrite Hoff in Heq. exact (online_not_offline _ _ _ _ H1 Heq).
    + assert (Hoff : analyze_data now1 data =
                     Ok (OFFLINE, "Sensor not responding - simulator may be stopped",
                         "gray")).
      { unfold analyze_data. rewrite (online_truthy _ _ _ H2), H1. reflexivity. }
      rewrite Hoff in Heq. symmetry in Heq.
      exact (online_not_offline _ _ _ _ H2 Heq).
  - intros H. unfold analyze_data. rewrite H. reflexivity.
Qed.

Lemma online_epoch_int (now : Z) (m : gmap string pyval) (z : Z) :
  m !! "timestamp" = Some (PInt z) -> 1000000000 < z ->
  is_sensor_online now (PDict m) 30 = Ok (now - z <=? 30).
Proof.
  intros Hts Hbig.
  rewrite (online_with_timestamp now 30 m (PInt z) Hts eq_refl).
  assert (Hex : exceeds (qval (PInt z)) 1000000000 = true).
  { apply exceeds_iff. unfold qval, Qlt. cbn [num_of Qnum Qden inject_Z].
    rewrite pow10_pos. change (10 ^ Z.of_nat 0) with 1. lia. }
  rewrite Hex. f_equal. unfold qval, Qle_bool.
  cbn [num_of Qminus Qplus Qopp Qnum Qden inject_Z].
  rewrite ?Pos.mul_1_l, ?pow10_pos. change (10 ^ Z.of_nat 0) with 1.
  destruct (Z.leb_spec ((now * 1 + - z * 1) * 1) (30 * 1));
    destruct (Z.leb_spec (now - z) 30); try reflexivity; lia.
Qed.

(** C8 (amended): [analyze_data] reads the clock, with the timeout
    fixed at 30 seconds.  Two evaluations of the same reading at two
    clock readings return identical results exactly when the online
    check answers the same at both.  That is always so for a reading
    without an epoch timestamp, and for an integer epoch timestamp [ts]
    it is so exactly when [now1 - ts <= 30] and [now2 - ts <= 30] are
    both true or both false. *)
Theorem analyze_data_clock_only_online (data : pyval) (now1 now2 : Z) :
  (analyze_data now1 data = analyze_data now2 data <->
   is_sensor_online now1 data 30 = is_sensor_online now2 data 30) /\
  (~ epoch_stamped data -> analyze_data now1 data = analyze_data now2 data) /\
  (forall m ts, data = PDict m -> m !! "timestamp" = Some (PInt ts) ->
     1000000000 < ts ->
     (analyze_data now1 data = analyze_data now2 data <->
      (now1 - ts <=? 30) = (now2 - ts <=? 30))).
Proof.
  split; [apply same_online_same_result|split].
  - intros Hne. apply same_online_same_result, online_clock_free, Hne.
  - intros m ts -> Hts Hbig. rewrite same_online_same_result.
    rewrite !(online_epoch_int _ m ts Hts Hbig).
    split; [intros H; injection H as H; exact H | intros ->; reflexivity].
Qed.

Lemma analyze_data_clock_only_online_witness :
  analyze_data 1700000020 (stamped 1700000000) =
    analyze_data 1700000025 (stamped 1700000000) /\
  analyze_data 1700000020 (stamped 1700000000) <>
    analyze_data 1700000100 (stamped 1700000000) /\
  analyze_data 5 (stamped 1234) = analyze_data 1700000000 (stamped 1234).
Proof.
  split; [|split].
  - refine (proj2 (proj2 (proj2 (analyze_data_clock_only_online
              (stamped 1700000000) 1700000020 1700000025))
              (list_to_map (("timestamp", PInt 1700000000) :: safe_fields))
              1700000000 eq_refl _ _) _);
      vm_compute; reflexivity.
  - intros Heq.
    pose proof (proj1 (proj2 (proj2 (analyze_data_clock_only_online
              (stamped 1700000000) 1700000020 1700000100))
              (list_to_map (("timestamp", PInt 1700000000) :: safe_fields))
              1700000000 eq_refl eq_refl eq_refl) Heq) as H.
    vm_compute in H. discriminate.
  - apply (proj1 (proj2 (analyze_data_clock_only_online (stamped 1234) 5 1700000000))).
    intros (m & ts & Hd & Hts & _ & Hex).
    injection Hd as <-. vm_compute in Hts. injection Hts as <-.
    vm_compute in Hex. discriminate.
Defined.

(** ** The summary of all labs *)

Lemma lab_status_section (now : string -> Z) (store : string -> pyval + string)
    (ui : list widget) (lab_id : string) :
  is_Some (lab_names !! lab_id) ->
  (forall data, store (lab_path lab_id) = inl data -> truthy data = true ->
     exists r, analyze_data (now lab_id) data = Ok r) ->
  lab_status now store ui lab_id =
  Ok (ui ++ lab_section (now lab_id) lab_id (store (lab_path lab_id)))%list.
Proof.
  intros [name Hname] Hok.
  unfold lab_status, get_latest_data, lab_section, lab_name_of,
    offline_line, status_line.
  fold (lab_path lab_id). rewrite Hname.
  destruct (store (lab_path lab_id)) as [data|e] eqn:Hfetch.
  - rewrite app_nil_r. destruct (truthy data) eqn:Htruthy; [|reflexivity].
    destruct (Hok data eq_refl Htruthy) as [[[status msg] color] ->].
    reflexivity.
  - cbn [truthy bind default]. rewrite <- app_assoc. reflexivity.
Qed.

Lemma all_labs_status_sections (now : string -> Z)
    (store : string -> pyval + string) (ids : list string) :
  (forall id, In id ids -> is_Some (lab_names !! id)) ->
  analyses_succeed now store ids ->
  forall ui,
    all_labs_status now store ids ui =
    Ok (ui ++ flat_map (fun id => lab_section (now id) id (store (lab_path id))) ids)%list.
Proof.
  induction ids as [|id ids IH]; intros Hknown Hok ui.
  - simpl. rewrite app_nil_r. reflexivity.
  - cbn [all_labs_status flat_map].
    rewrite lab_status_section.
    + cbn [bind]. rewrite IH.
      * rewrite <- app_assoc. reflexivity.
      * intros id' Hin. apply Hknown. right. exact Hin.
      * intros id' data Hin. apply Hok. right. exact Hin.
    + apply Hknown. left. reflexivity.
    + intros data. apply Hok. left. reflexivity.
Qed.

(** C9, as stated, fails: the lab whose fetch fails is shown as OFFLINE,
    not as UNKNOWN; the other two labs keep their own tiers. *)
Lemma failed_fetch_shown_offline :
  all_labs_status (fun _ => 0) sample_store all_labs [] =
    Ok [status_line "sensor_node_01" SAFE;
        ErrorBox "Error fetching data: connection lost";
        offline_line "sensor_node_02";
        status_line "sensor_node_03" WARNING] /\
  offline_line "sensor_node_02" = Markdown "‚ö´ **Room B**: OFFLINE" /\
  offline_line "sensor_node_02" <> status_line "sensor_node_02" UNKNOWN.
Proof.
  split; [vm_compute; reflexivity|]. split; [vm_compute; reflexivity|].
  vm_compute. discriminate.
Qed.

(** C9 (amended): in the summary of all labs a lab whose fetch fails is
    reported and shown as OFFLINE, and what is shown for every lab is
    a function of that lab's own fetch alone: as long as the analysis
    of no fetched reading raises, the page is the concatenation, in
    order, of the labs' own sections, so a failed fetch of one lab does
    not prevent or alter the tiers shown for the others. *)
Theorem summary_isolates_failed_fetch (now : string -> Z)
    (store : string -> pyval + string) (ids : list string) :
  (forall id, In id ids -> is_Some (lab_names !! id)) ->
  analyses_succeed now store ids ->
  all_labs_status now store ids [] =
    Ok (flat_map (fun id => lab_section (now id) id (store (lab_path id))) ids) /\
  (forall id e, store (lab_path id) = inr e ->
     lab_section (now id) id (store (lab_path id)) =
     [ErrorBox ("Error fetching data: " +:+ e); offline_line id]) /\
  (forall id data status msg color,
     store (lab_path id) = inl data -> truthy data = true ->
     analyze_data (now id) data = Ok (status, msg, color) ->
     lab_section (now id) id (store (lab_path id)) = [status_line id status]).
Proof.
  intros Hknown Hok. split; [|split].
  - apply (all_labs_status_sections now store ids Hknown Hok []).
  - intros id e ->. reflexivity.
  - intros id data status msg color -> Htruthy Han.
    unfold lab_section. rewrite Htruthy, Han. reflexivity.
Qed.

Lemma summary_isolates_failed_fetch_witness :
  all_labs_status (fun _ => 0) sample_store all_labs [] =
  Ok (flat_map (fun id => lab_section 0 id (sample_store (lab_path id))) all_labs).
Proof.
  refine (proj1 (summary_isolates_failed_fetch (fun _ => 0) sample_store all_labs _ _)).
  - intros id [<-|[<-|[<-|[]]]]; vm_compute; eauto.
  - intros id data [<-|[<-|[<-|[]]]] Hfetch _; vm_compute in Hfetch;
      try discriminate; injection Hfetch as <-; eexists; vm_compute; reflexivity.
Defined.

(** ** Readings that lack a metric *)

Lemma metric_of_missing (m : gmap string pyval) (key : string) :
  m !! key = None -> metric_of m key = PInt 0.
Proof. intros H. unfold metric_of. rewrite H. reflexivity. Qed.

(** C10: for every online reading with numeric metrics, a missing
    temperature is read as 0, below the critical bound 10, so the
    result is CRITICAL and its first reason is the temperature's; a
    missing humidity is read as 0, below the critical bound 20, so the
    result is CRITICAL with the humidity's reason among the reasons;
    a missing gas level is read as 0 and adds no reason, so that the
    reading is SAFE when temperature and humidity are in range. *)
Theorem missing_metric_defaults (now : Z) (m : gmap string pyval) :
  is_sensor_online now (PDict m) 30 = Ok true ->
  numeric_metrics m ->
  let temp := metric_of m "temperature" in
  let humidity := metric_of m "humidity" in
  let gas_ppm := metric_of m "gas_ppm" in
  (m !! "temperature" = None ->
   exists rest,
     analyze_data now (PDict m) =
     Ok (CRITICAL, String.concat " | " ("Critical Temperature: 0¬∞C" :: rest), "red")) /\
  (m !! "humidity" = None ->
   exists reasons,
     analyze_data now (PDict m) = Ok (CRITICAL, String.concat " | " reasons, "red") /\
     In "Critical Humidity: 0%" reasons) /\
  (m !! "gas_ppm" = None ->
   analyze_issues temp humidity gas_ppm =
     Ok (reasons_at Critical [(Temperature, temp); (Humidity, humidity)],
         reasons_at Warning [(Temperature, temp); (Humidity, humidity)]) /\
   (at_level Normal (Temperature, temp) -> at_level Normal (Humidity, humidity) ->
    analyze_data now (PDict m) =
    Ok (SAFE, "All parameters within safe range", "green"))).
Proof.
  intros Hon Hnum temp humidity gas_ppm.
  rewrite (analyze_data_online now m Hon Hnum).
  fold temp humidity gas_ppm. destruct Hnum as (Ht & Hh & Hg).
  fold temp in Ht. fold humidity in Hh. fold gas_ppm in Hg.
  split; [|split].
  - intros Hnone. apply metric_of_missing in Hnone. fold temp in Hnone.
    rewrite Hnone. unfold spec_classify, readings, reasons_at. cbn [flat_map].
    change (metric_level Temperature (qval (PInt 0))) with Critical.
    cbn [level_eqb app].
    change (reason Temperature Critical (PInt 0)) with "Critical Temperature: 0¬∞C".
    eexists. reflexivity.
  - intros Hnone. apply metric_of_missing in Hnone. fold humidity in Hnone.
    rewrite Hnone.
    assert (Hin : In "Critical Humidity: 0%"
                     (reasons_at Critical (readings temp (PInt 0) gas_ppm))).
    { unfold reasons_at, readings. cbn [flat_map]. apply in_or_app. right.
      change (metric_level Humidity (qval (PInt 0))) with Critical.
      cbn [level_eqb app]. left. vm_compute. reflexivity. }
    unfold spec_classify.
    destruct (reasons_at Critical (readings temp (PInt 0) gas_ppm)) as [|c cs];
      [destruct Hin|].
    exists (c :: cs). split; [reflexivity|exact Hin].
  - intros Hnone. apply metric_of_missing in Hnone. fold gas_ppm in Hnone.
    rewrite Hnone in *. split.
    + rewrite analyze_issues_spec by assumption.
      unfold reasons_at, readings. cbn [flat_map].
      change (metric_level Gas (qval (PInt 0))) with Normal.
      cbn [level_eqb]. rewrite !app_nil_r. reflexivity.
    + unfold at_level. cbn [fst snd]. intros Htn Hhn.
      unfold spec_classify, readings, reasons_at. cbn [flat_map].
      rewrite Htn, Hhn.
      change (metric_level Gas (qval (PInt 0))) with Normal.
      reflexivity.
Qed.

Lemma missing_metric_defaults_witness :
  (exists rest,
     analyze_data 0 (PDict no_temperature) =
     Ok (CRITICAL, String.concat " | " ("Critical Temperature: 0¬∞C" :: rest), "red")) /\
  (exists reasons,
     analyze_data 0 (PDict no_humidity) = Ok (CRITICAL, String.concat " | " reasons, "red") /\
     In "Critical Humidity: 0%" reasons) /\
  analyze_data 0 (PDict climate_only) =
    Ok (SAFE, "All parameters within safe range", "green").
Proof.
  split; [|split].
  - refine (proj1 (missing_metric_defaults 0 no_temperature _ _) _);
      [| split; [|split] |]; vm_compute; reflexivity.
  - refine (proj1 (proj2 (missing_metric_defaults 0 no_humidity _ _)) _);
      [| split; [|split] |]; vm_compute; reflexivity.
  - refine (proj2 (proj2 (proj2 (missing_metric_defaults 0 climate_only _ _)) _) _ _);
      [| split; [|split] | | |]; vm_compute; reflexivity.
Defined.

(** ** Further properties of [analyze_data] *)

Lemma analyze_issues_raise (temp humidity gas_ppm : pyval) (e : exn) :
  analyze_issues temp humidity gas_ppm = Raise e -> e = TypeError.
Proof.
  unfold analyze_issues.
  destruct (is_number temp) eqn:Ht;
    [|rewrite (py_gt_not_number temp 30 Ht); cbn; congruence].
  rewrite !(py_gt_number temp), !(py_lt_number temp), !py_or_ok by assumption.
  cbn [bind].
  destruct (is_number humidity) eqn:Hh;
    [|rewrite (py_gt_not_number humidity 70 Hh);
      destruct (exceeds (qval temp) 30 || under (qval temp) 10),
        (exceeds (qval temp) 26 || under (qval temp) 18); cbn; congruence].
  rewrite !(py_gt_number humidity), !(py_lt_number humidity), !py_or_ok by assumption.
  destruct (is_number gas_ppm) eqn:Hg.
  - rewrite !(py_gt_number gas_ppm) by assumption.
    destruct (exceeds (qval temp) 30 || under (qval temp) 10),
      (exceeds (qval temp) 26 || under (qval temp) 18),
      (exceeds (qval humidity) 70 || under (qval humidity) 20),
      (exceeds (qval humidity) 60 || under (qval humidity) 30),
      (exceeds (qval gas_ppm) 800), (exceeds (qval gas_ppm) 500); discriminate.
  - rewrite !(py_gt_not_number gas_ppm) by assumption.
    destruct (exceeds (qval temp) 30 || under (qval temp) 10),
      (exceeds (qval temp) 26 || under (qval temp) 18),
      (exceeds (qval humidity) 70 || under (qval humidity) 20),
      (exceeds (qval humidity) 60 || under (qval humidity) 30); cbn; congruence.
Qed.

(** X1: whenever [analyze_data] returns, the colour is the one of the
    tier, the tier is UNKNOWN exactly for an absent reading and OFFLINE
    exactly for a present reading that fails the online check; this
    holds for every JSON value, also for malformed ones. *)
Theorem analyze_data_tier (now : Z) (data : pyval) (t : tier) (msg color : string) :
  analyze_data now data = Ok (t, msg, color) ->
  color = tier_color t /\
  (t = UNKNOWN <-> truthy data = false) /\
  (t = OFFLINE <-> truthy data = true /\ is_sensor_online now data 30 = Ok false).
Proof.
  unfold analyze_data.
  destruct (truthy data) eqn:Htruthy; cbn [negb].
  - destruct (is_sensor_online_ok now data 30) as [b Hb]. rewrite Hb.
    destruct b; cbn [bind negb].
    + destruct (py_get data "temperature" (PInt 0)) as [temp|]; [|discriminate].
      destruct (py_get data "humidity" (PInt 0)) as [humidity|]; [|discriminate].
      destruct (py_get data "gas_ppm" (PInt 0)) as [gas_ppm|]; [|discriminate].
      destruct (py_get data "motion_detected" (PBool false)); [|discriminate].
      cbn [bind].
      destruct (analyze_issues temp humidity gas_ppm) as [[[|c cs] [|w ws]]|];
        cbn [bind]; intros H; try discriminate; injection H as <- <- <-;
        (split; [reflexivity|split; split; try discriminate;
                 intros [_ ?]; discriminate]).
    + intros H. injection H as <- <- <-.
      split; [reflexivity|split; split; try discriminate; auto].
  - intros H. injection H as <- <- <-.
    split; [reflexivity|split; split; try discriminate; auto].
    intros [? _]. discriminate.
Qed.

Lemma analyze_data_tier_witness :
  "red" = tier_color CRITICAL /\
  (CRITICAL = UNKNOWN <-> truthy (PDict hot_and_humid) = false) /\
  (CRITICAL = OFFLINE <->
   truthy (PDict hot_and_humid) = true /\
   is_sensor_online 0 (PDict hot_and_humid) 30 = Ok false).
Proof.
  apply (analyze_data_tier 0 (PDict hot_and_humid) CRITICAL
           "Critical Temperature: 35¬∞C" "red").
  vm_compute. reflexivity.
Defined.

(** X2: [analyze_data] raises exactly when the reading passes the
    online check and is either not a dictionary ([AttributeError] at
    [data.get]) or a dictionary with a temperature, humidity or gas
    field that is not a number ([TypeError] at the comparison). *)
Theorem analyze_data_raises (now : Z) (data : pyval) (e : exn) :
  analyze_data now data = Raise e <->
  is_sensor_online now data 30 = Ok true /\
  ((is_dict data = false /\ e = AttributeError) \/
   (exists m, data = PDict m /\ ~ numeric_metrics m /\ e = TypeError)).
Proof.
  split.
  - unfold analyze_data. destruct (truthy data) eqn:Htruthy; [|discriminate].
    destruct (is_sensor_online_ok now data 30) as [[|] Hb]; rewrite Hb;
      [|discriminate].
    cbn [negb bind]. intros H. split; [reflexivity|].
    destruct data as [| | | | | |m|];
      try (cbn in H; injection H as <-; left; split; reflexivity).
    right. exists m. cbn [py_get bind] in H.
    fold (metric_of m "temperature") (metric_of m "humidity")
      (metric_of m "gas_ppm") in H.
    destruct (analyze_issues (metric_of m "temperature") (metric_of m "humidity")
                (metric_of m "gas_ppm")) as [[c w]|e'] eqn:Hiss.
    + cbn [bind] in H. destruct c, w; discriminate.
    + cbn [bind] in H. injection H as <-. split; [reflexivity|split].
      * intros (Ht & Hh & Hg). rewrite analyze_issues_spec in Hiss by assumption.
        discriminate.
      * exact (analyze_issues_raise _ _ _ _ Hiss).
  - intros [Hon Hcase]. unfold analyze_data.
    rewrite (online_truthy _ _ _ Hon), Hon. cbn [negb bind].
    destruct Hcase as [[Hnd ->]|(m & -> & Hnn & ->)].
    + destruct data; try reflexivity. discriminate.
    + cbn [py_get bind].
      fold (metric_of m "temperature") (metric_of m "humidity")
        (metric_of m "gas_ppm").
      destruct (analyze_issues (metric_of m "temperature") (metric_of m "humidity")
                  (metric_of m "gas_ppm")) as [[c w]|e'] eqn:Hiss.
      * exfalso. apply Hnn. exact (analyze_issues_numbers _ _ _ _ Hiss).
      * cbn [bind]. f_equal. exact (analyze_issues_raise _ _ _ _ Hiss).
Qed.

Lemma analyze_data_raises_witness :
  is_sensor_online 0 (PList [PStr "temperature"]) 30 = Ok true /\
  ((is_dict (PList [PStr "temperature"]) = false /\ AttributeError = AttributeError) \/
   (exists m, PList [PStr "temperature"] = PDict m /\ ~ numeric_metrics m /\
              AttributeError = TypeError)).
Proof.
  apply (proj1 (analyze_data_raises 0 (PList [PStr "temperature"]) AttributeError)).
  vm_compute. reflexivity.
Defined.

(** ** Further properties of [is_sensor_online] *)

Lemma age_monotone (now now' timeout timeout' : Z) (ts : pyval) :
  now' <= now -> timeout <= timeout' ->
  try_except (age_seconds <- py_sub now ts ; py_le age_seconds timeout) (Ok true)
    = Ok true ->
  try_except (age_seconds <- py_sub now' ts ; py_le age_seconds timeout') (Ok true)
    = Ok true.
Proof.
  intros Hnow Ht.
  destruct ts as [|b|z|fm fs| | | |]; try (intros _; reflexivity);
    unfold py_le, py_cmp; cbn [py_sub bind num_of try_except];
    intros H; injection H as H; f_equal.
  - change (10 ^ Z.of_nat 0) with 1 in *.
    destruct (Z.compare_spec (now - Z.b2z b) (timeout * 1)); try discriminate;
      destruct (Z.compare_spec (now' - Z.b2z b) (timeout' * 1)); try reflexivity; lia.
  - change (10 ^ Z.of_nat 0) with 1 in *.
    destruct (Z.compare_spec (now - z) (timeout * 1)); try discriminate;
      destruct (Z.compare_spec (now' - z) (timeout' * 1)); try reflexivity; lia.
  - assert (Hp : 0 < 10 ^ Z.of_nat fs) by (apply Z.pow_pos_nonneg; lia).
    set (p := 10 ^ Z.of_nat fs) in *.
    assert (now' * p <= now * p) by (apply Z.mul_le_mono_nonneg_r; lia).
    assert (timeout * p <= timeout' * p) by (apply Z.mul_le_mono_nonneg_r; lia).
    destruct (Z.compare_spec (now * p - fm) (timeout * p)); try discriminate;
      destruct (Z.compare_spec (now' * p - fm) (timeout' * p)); try reflexivity; lia.
  - change (10 ^ Z.of_nat 0) with 1 in *.
    destruct (Z.compare_spec now (timeout * 1)); try discriminate;
      destruct (Z.compare_spec now' (timeout' * 1)); try reflexivity; lia.
Qed.

(** X3: the online check is monotone.  For every value, a reading that
    is online at some clock and timeout is online at every earlier
    clock and at every larger timeout; so a reading found offline stays
    offline as time passes. *)
Theorem is_sensor_online_monotone (now now' timeout timeout' : Z) (data : pyval) :
  now' <= now -> timeout <= timeout' ->
  is_sensor_online now data timeout = Ok true ->
  is_sensor_online now' data timeout' = Ok true.
Proof.
  intros Hnow Ht. unfold is_sensor_online, online_try.
  destruct (truthy data); [|discriminate]. cbn [negb].
  destruct (py_in "timestamp" data) as [[|]|]; cbn [bind]; try (intros _; reflexivity).
  - destruct (py_get data "timestamp" (PInt 0)) as [ts|]; cbn [bind];
      [|intros _; reflexivity].
    destruct (py_gt ts 1000000000) as [[|]|]; cbn [bind]; try (intros _; reflexivity).
    apply age_monotone; assumption.
  - trivial.
Qed.

Lemma is_sensor_online_monotone_witness :
  is_sensor_online 1700000010 (stamped 1700000000) 60 = Ok true.
Proof.
  apply (is_sensor_online_monotone 1700000020 1700000010 30 60);
    [lia | lia | vm_compute; reflexivity].
Defined.

(** X4: the clock matters only for a dictionary whose timestamp is a
    number above 1,000,000,000.  For every other value, with a boot-time
    timestamp, without a timestamp or malformed, [is_sensor_online] and
    [analyze_data] give the same result at any two clock values. *)
Theorem clock_free_without_epoch (data : pyval) (now1 now2 : Z) :
  ~ epoch_stamped data ->
  (forall timeout,
     is_sensor_online now1 data timeout = is_sensor_online now2 data timeout) /\
  analyze_data now1 data = analyze_data now2 data.
Proof.
  intros Hne. split.
  - intros timeout. apply online_clock_free. exact Hne.
  - unfold analyze_data. rewrite (online_clock_free now1 now2 30 data Hne). reflexivity.
Qed.

Lemma clock_free_without_epoch_witness :
  (forall timeout,
     is_sensor_online 5 (stamped 1234) timeout =
     is_sensor_online 1700000000 (stamped 1234) timeout) /\
  analyze_data 5 (stamped 1234) = analyze_data 1700000000 (stamped 1234).
Proof.
  apply clock_free_without_epoch.
  intros (m & ts & Hd & Hts & _ & Hex).
  injection Hd as <-. vm_compute in Hts. injection Hts as <-.
  vm_compute in Hex. discriminate.
Defined.

(** X5: a non-empty reading that has neither a timestamp nor a
    temperature nor a humidity field is reported OFFLINE whatever else
    it holds, for instance a dangerous gas level. *)
Theorem offline_without_climate (now : Z) (m : gmap string pyval) :
  m <> ∅ ->
  m !! "timestamp" = None -> m !! "temperature" = None -> m !! "humidity" = None ->
  analyze_data now (PDict m) =
  Ok (OFFLINE, "Sensor not responding - simulator may be stopped", "gray").
Proof.
  intros Hne Hts Ht Hh.
  assert (Hoff : is_sensor_online now (PDict m) 30 = Ok false).
  { unfold is_sensor_online, online_try, truthy.
    rewrite bool_decide_eq_false_2 by assumption.
    rewrite !py_in_dict, Hts, Ht, Hh, py_or_ok.
    rewrite !bool_decide_eq_false_2 by (intros [? ?]; discriminate).
    reflexivity. }
  unfold analyze_data. rewrite Hoff. unfold truthy.
  rewrite bool_decide_eq_false_2 by assumption. reflexivity.
Qed.

Lemma offline_without_climate_witness :
  analyze_data 0 (PDict gas_only) =
  Ok (OFFLINE, "Sensor not responding - simulator may be stopped", "gray").
Proof.
  apply offline_without_climate; [|vm_compute; reflexivity..].
  intros H. apply (f_equal (fun m : gmap string pyval => m !! "gas_ppm")) in H.
  vm_compute in H. discriminate.
Defined.

(** ** Further properties of the summary of all labs *)

Lemma present_not_unknown (now : Z) (data : pyval) (t : tier) (msg color : string) :
  truthy data = true -> analyze_data now data = Ok (t, msg, color) -> t <> UNKNOWN.
Proof.
  intros Htruthy. unfold analyze_data. rewrite Htruthy. cbn [negb].
  destruct (is_sensor_online now data 30) as [[|]|]; cbn [bind negb];
    [| intros H; injection H as <- _ _; discriminate | discriminate].
  destruct (py_get data "temperature" (PInt 0)) as [temp|]; [|discriminate].
  destruct (py_get data "humidity" (PInt 0)) as [humidity|]; [|discriminate].
  destruct (py_get data "gas_ppm" (PInt 0)) as [gas_ppm|]; [|discriminate].
  destruct (py_get data "motion_detected" (PBool false)); [|discriminate].
  cbn [bind].
  destruct (analyze_issues temp humidity gas_ppm) as [[[|c cs] [|w ws]]|];
    cbn [bind]; intros H; try discriminate; injection H as <- _ _; discriminate.
Qed.

Lemma lab_status_entry (now : string -> Z) (store : string -> pyval + string)
    (ui ui' : list widget) (lab_id : string) :
  lab_status now store ui lab_id = Ok ui' ->
  exists sec, ui' = (ui ++ sec)%list /\ summary_entry lab_id sec.
Proof.
  unfold lab_status, get_latest_data, lab_name_of, summary_entry,
    offline_line, status_line.
  destruct (store ("/devices/" +:+ lab_id +:+ "/latest")) as [data|e].
  - rewrite app_nil_r. destruct (truthy data) eqn:Htruthy.
    + destruct (analyze_data (now lab_id) data) as [[[status msg] color]|] eqn:Han;
        [|discriminate].
      cbn [bind]. destruct (lab_names !! lab_id) as [name|]; [|discriminate].
      cbn [bind default]. intros H. injection H as <-.
      eexists. split; [reflexivity|]. right. right. exists status.
      split; [exact (present_not_unknown _ _ _ _ _ Htruthy Han)|reflexivity].
    + destruct (lab_names !! lab_id) as [name|]; [|discriminate].
      cbn [bind default]. intros H. injection H as <-.
      eexists. split; [reflexivity|]. left. reflexivity.
  - cbn [truthy]. destruct (lab_names !! lab_id) as [name|]; [|discriminate].
    cbn [bind default]. intros H. injection H as <-.
    eexists. split; [symmetry; apply app_assoc|]. right. left. exists e. reflexivity.
Qed.

(** X6: whenever the summary loop completes, the page is the page
    before it followed by one entry per lab, in the order of the labs:
    the offline line, the report of a failed fetch followed by the
    offline line, or the line of a tier, which is never UNKNOWN. *)
Theorem summary_entries (now : string -> Z) (store : string -> pyval + string)
    (ids : list string) (ui page : list widget) :
  all_labs_status now store ids ui = Ok page ->
  exists secs, page = (ui ++ concat secs)%list /\ Forall2 summary_entry ids secs.
Proof.
  revert ui. induction ids as [|id ids IH]; intros ui; cbn [all_labs_status].
  - intros H. injection H as <-. exists []. split; [symmetry; apply app_nil_r|constructor].
  - destruct (lab_status now store ui id) as [ui'|] eqn:Hstep; [|discriminate].
    cbn [bind]. intros Hrest.
    destruct (lab_status_entry _ _ _ _ _ Hstep) as (sec & -> & Hsec).
    destruct (IH _ Hrest) as (secs & -> & Hsecs).
    exists (sec :: secs). split; [|constructor; assumption].
    cbn [concat]. symmetry. apply app_assoc.
Qed.

Lemma summary_entries_witness :
  exists secs,
    [status_line "sensor_node_01" SAFE;
     ErrorBox "Error fetching data: connection lost";
     offline_line "sensor_node_02";
     status_line "sensor_node_03" WARNING] = ([] ++ concat secs)%list /\
    Forall2 summary_entry all_labs secs.
Proof.
  apply (summary_entries (fun _ => 0) sample_store all_labs []).
  vm_compute. reflexivity.
Defined.

(** X7: the summary loop does not contain a failing analysis.  If the
    present reading fetched for any one of the labs makes
    [analyze_data] raise, the loop as a whole raises instead of
    completing, whatever the other labs hold. *)
Theorem summary_aborts_on_analysis_error (now : string -> Z)
    (store : string -> pyval + string) (ids : list string) (ui : list widget)
    (lab_id : string) (data : pyval) (e : exn) :
  In lab_id ids ->
  store (lab_path lab_id) = inl data -> truthy data = true ->
  analyze_data (now lab_id) data = Raise e ->
  exists e', all_labs_status now store ids ui = Raise e'.
Proof.
  intros Hin Hfetch Htruthy Han. revert ui.
  induction ids as [|id ids IH]; intros ui; [destruct Hin|].
  cbn [all_labs_status].
  destruct (lab_status now store ui id) as [ui'|e'] eqn:Hstep; [|eauto].
  cbn [bind]. destruct Hin as [->|Hin]; [|apply IH; exact Hin].
  exfalso. revert Hstep. unfold lab_status, get_latest_data.
  fold (lab_path lab_id). rewrite Hfetch, Htruthy, Han. discriminate.
Qed.

Lemma summary_aborts_on_analysis_error_witness :
  exists e', all_labs_status (fun _ => 0) broken_store all_labs [] = Raise e'.
Proof.
  apply (summary_aborts_on_analysis_error (fun _ => 0) broken_store all_labs []
           "sensor_node_02" (with_metric "temperature" (PStr "hot")) TypeError);
    [right; left; reflexivity | vm_compute; reflexivity..].
Defined.

(** ** The air-conditioning flag *)

(** X8: [get_ac_status] never fails and never returns a falsy value
    other than [False]: its truth value is that of the stored value, or
    false when the fetch fails, and whenever it is false the result is
    [False] itself, not [None], [0] or an empty container. *)
Theorem get_ac_status_normalised (store : string -> pyval + string)
    (device_id : string) :
  truthy (get_ac_status store device_id) =
    match store ("/labs/" +:+ device_id +:+ "/ac") with
    | inl v => truthy v
    | inr _ => false
    end /\
  (truthy (get_ac_status store device_id) = false ->
   get_ac_status store device_id = PBool false).
Proof.
  unfold get_ac_status.
  destruct (store ("/labs/" +:+ device_id +:+ "/ac")) as [v|e]; [|split; reflexivity].
  destruct (truthy v) eqn:Hv; split; try reflexivity; try assumption.
  rewrite Hv. discriminate.
Qed.

Lemma get_ac_status_normalised_witness :
  get_ac_status (db_get no_outage ∅) "sensor_node_01" = PBool false.
Proof.
  apply (proj2 (get_ac_status_normalised (db_get no_outage ∅) "sensor_node_01")).
  vm_compute. reflexivity.
Defined.

(** X9: writing and reading the flag.  After a [set_ac_status] of a
    boolean that returned [True], [get_ac_status] of the same device
    returns that boolean when the database can be reached, and [False]
    when it cannot. *)
Theorem ac_status_round_trip (outage outage' : string -> option string)
    (db db' : gmap string pyval) (device_id : string) (b : bool)
    (shown : list widget) :
  set_ac_status outage db device_id (PBool b) = (db', true, shown) ->
  shown = [] /\
  get_ac_status (db_get outage' db') device_id =
    match outage' ("/labs/" +:+ device_id +:+ "/ac") with
    | None => PBool b
    | Some _ => PBool false
    end.
Proof.
  unfold set_ac_status, db_set, get_ac_status, db_get.
  destruct (outage ("/labs/" +:+ device_id +:+ "/ac")); [discriminate|].
  intros H. injection H as <- <-. split; [reflexivity|].
  destruct (outage' ("/labs/" +:+ device_id +:+ "/ac")); [reflexivity|].
  rewrite lookup_insert_eq. destruct b; reflexivity.
Qed.

Lemma ac_status_round_trip_witness :
  get_ac_status
    (db_get no_outage (<["/labs/sensor_node_01/ac" := PBool true]> ∅))
    "sensor_node_01" = PBool true.
Proof.
  refine (proj2 (ac_status_round_trip no_outage no_outage ∅ _ "sensor_node_01"
                   true [] _)).
  reflexivity.
Defined.

Lemma ac_path_not_latest (device_id lab_id : string) :
  "/labs/" +:+ device_id +:+ "/ac" <> "/devices/" +:+ lab_id +:+ "/latest".
Proof. cbn. discriminate. Qed.

(** X10: switching the air conditioning does not touch the sensor
    data.  Whatever [set_ac_status] writes, for whatever device and
    whether or not the write succeeds, [get_latest_data] returns for
    every device what it returned before. *)
Theorem set_ac_status_keeps_latest (outage outage' : string -> option string)
    (db : gmap string pyval) (device_id : string) (status : pyval)
    (lab_id : string) :
  get_latest_data
    (db_get outage' (fst (fst (set_ac_status outage db device_id status)))) lab_id =
  get_latest_data (db_get outage' db) lab_id.
Proof.
  unfold set_ac_status, db_set.
  destruct (outage ("/labs/" +:+ device_id +:+ "/ac")); [reflexivity|].
  cbn [fst]. unfold get_latest_data, db_get.
  destruct (outage' ("/devices/" +:+ lab_id +:+ "/latest")); [reflexivity|].
  rewrite lookup_insert_ne by apply ac_path_not_latest. reflexivity.
Qed.

(** ** The head of the device page *)

Lemma classified_reading (now : Z) (data : pyval) (t : tier) (msg color : string) :
  analyze_data now data = Ok (t, msg, color) -> t <> UNKNOWN -> t <> OFFLINE ->
  exists m, data = PDict m /\ numeric_metrics m /\
            is_sensor_online now data 30 = Ok true.
Proof.
  unfold analyze_data. destruct (truthy data); cbn [negb];
    [|intros H; injection H as <- _ _; congruence].
  destruct (is_sensor_online now data 30) as [[|]|]; cbn [bind negb];
    [| intros H; injection H as <- _ _; congruence | discriminate].
  destruct data as [|b|z|fm fs|s|l|m|]; try discriminate.
  cbn [py_get bind].
  fold (metric_of m "temperature") (metric_of m "humidity") (metric_of m "gas_ppm").
  destruct (analyze_issues (metric_of m "temperature") (metric_of m "humidity")
              (metric_of m "gas_ppm")) as [r|] eqn:Hiss; [|discriminate].
  intros _ _ _. exists m. split; [reflexivity|split; [|reflexivity]].
  exact (analyze_issues_numbers _ _ _ _ Hiss).
Qed.

(** X11: for a present reading the device page goes on past the banner
    exactly when the reading is online at both clock reads, the one
    inside [analyze_data] and the one of the second check; otherwise it
    shows the offline page and reruns or stops, even when the analysis
    itself had classified the reading. *)
Theorem main_status_continues_iff (now1 now2 : Z) (store : string -> pyval + string)
    (device_id : string) (auto_refresh : bool) (data : pyval)
    (page : list element) (fl : flow) :
  store (lab_path device_id) = inl data -> truthy data = true ->
  main_status now1 now2 store device_id auto_refresh = Ok (page, fl) ->
  (fl = Continue <->
   is_sensor_online now1 data 30 = Ok true /\
   is_sensor_online now2 data 30 = Ok true) /\
  (fl <> Continue ->
   page = offline_page /\ fl = if auto_refresh then Rerun else Stop).
Proof.
  intros Hfetch Htruthy. unfold main_status, get_latest_data.
  fold (lab_path device_id). rewrite Hfetch, Htruthy. cbn [negb map app].
  destruct (analyze_data now1 data) as [[[status msg] color]|] eqn:Han;
    [|discriminate].
  cbn [bind].
  destruct (is_sensor_online now2 data 30) as [on2|] eqn:Hon2; [|discriminate].
  cbn [bind].
  assert (Hoff : status = OFFLINE <-> is_sensor_online now1 data 30 = Ok false).
  { revert Han. unfold analyze_data. rewrite Htruthy. cbn [negb].
    destruct (is_sensor_online now1 data 30) as [[|]|]; cbn [bind negb].
    - destruct (py_get data "temperature" (PInt 0)) as [temp|]; [|discriminate].
      destruct (py_get data "humidity" (PInt 0)) as [humidity|]; [|discriminate].
      destruct (py_get data "gas_ppm" (PInt 0)) as [gas_ppm|]; [|discriminate].
      destruct (py_get data "motion_detected" (PBool false)); [|discriminate].
      cbn [bind].
      destruct (analyze_issues temp humidity gas_ppm) as [[[|c cs] [|w ws]]|];
        cbn [bind]; intros H; try discriminate; injection H as <- _ _;
        split; discriminate.
    - intros H. injection H as <- _ _. split; reflexivity.
    - discriminate. }
  destruct (is_sensor_online_ok now1 data 30) as [on1 Hon1].
  rewrite Hon1 in *.
  assert (Hb : match status with OFFLINE => true | _ => false end = negb on1).
  { destruct on1; cbn [negb].
    - destruct status; try reflexivity.
      destruct Hoff as [Hoff _]. specialize (Hoff eq_refl). discriminate.
    - destruct Hoff as [_ Hoff]. rewrite (Hoff eq_refl). reflexivity. }
  rewrite Hb. clear Hb Hoff Han.
  destruct on1, on2; cbn [orb negb]; intros H; injection H as <- <-.
  - split; [split; [intros _; split; reflexivity | reflexivity]|].
    intros Hc. exfalso. apply Hc. reflexivity.
  - split; [split; [destruct auto_refresh; discriminate
                   | intros [_ ?]; discriminate]|].
    intros _. split; reflexivity.
  - split; [split; [destruct auto_refresh; discriminate
                   | intros [? _]; discriminate]|].
    intros _. split; reflexivity.
  - split; [split; [destruct auto_refresh; discriminate
                   | intros [? _]; discriminate]|].
    intros _. split; reflexivity.
Qed.

Lemma main_status_continues_iff_witness :
  (Stop = Continue <->
   is_sensor_online 1700000020 (stamped 1700000000) 30 = Ok true /\
   is_sensor_online 1700000040 (stamped 1700000000) 30 = Ok true) /\
  (Stop <> Continue -> offline_page = offline_page /\ Stop = Stop).
Proof.
  apply (main_status_continues_iff 1700000020 1700000040
           (stamped_store 1700000000) "sensor_node_01" false
           (stamped 1700000000) offline_page Stop);
    vm_compute; reflexivity.
Defined.

(** X12: when the device page goes on past the banner, the reading is a
    dictionary whose temperature, humidity and gas fields are numbers,
    its tier is SAFE, WARNING or CRITICAL, and the page so far is the
    banner carrying the message of [analyze_data], followed by an empty
    markdown. *)
Theorem main_status_continue_classified (now1 now2 : Z)
    (store : string -> pyval + string) (device_id : string)
    (auto_refresh : bool) (page : list element) :
  main_status now1 now2 store device_id auto_refresh = Ok (page, Continue) ->
  exists m status message color,
    store (lab_path device_id) = inl (PDict m) /\ numeric_metrics m /\
    analyze_data now1 (PDict m) = Ok (status, message, color) /\
    (status = SAFE \/ status = WARNING \/ status = CRITICAL) /\
    exists class label,
      page = [alert class (label +:+ message); Shown (Markdown "")].
Proof.
  unfold main_status, get_latest_data. fold (lab_path device_id).
  destruct (store (lab_path device_id)) as [data|e];
    [|cbn; destruct auto_refresh; discriminate].
  destruct (truthy data) eqn:Htruthy; cbn [negb map app];
    [|destruct auto_refresh; discriminate].
  destruct (analyze_data now1 data) as [[[status msg] color]|] eqn:Han;
    [|discriminate].
  cbn [bind].
  destruct (is_sensor_online now2 data 30) as [on2|]; [|discriminate].
  cbn [bind].
  assert (Hunk : status <> UNKNOWN)
    by exact (present_not_unknown _ _ _ _ _ Htruthy Han).
  destruct status, on2; cbn [orb negb]; try congruence;
    try (destruct auto_refresh; discriminate);
    intros H; injection H as <-;
    (destruct (classified_reading _ _ _ _ _ Han) as (m & -> & Hnum & _);
     [discriminate|discriminate|]);
    exists m; eexists _, msg, color;
    (split; [reflexivity|split; [exact Hnum|split; [exact Han|split]]]);
    [ left; reflexivity | eexists _, _; reflexivity
    | right; left; reflexivity | eexists _, _; reflexivity
    | right; right; reflexivity | eexists _, _; reflexivity ].
Qed.

Lemma main_status_continue_classified_witness :
  exists m status message color,
    stamped_store 1700000000 (lab_path "sensor_node_01") = inl (PDict m) /\
    numeric_metrics m /\
    analyze_data 1700000020 (PDict m) = Ok (status, message, color) /\
    (status = SAFE \/ status = WARNING \/ status = CRITICAL) /\
    exists class label,
      [alert "alert-safe" "üü¢ System Status: All parameters within safe range";
       Shown (Markdown "")] =
      [alert class (label +:+ message); Shown (Markdown "")].
Proof.
  apply (main_status_continue_classified 1700000020 1700000025
           (stamped_store 1700000000) "sensor_node_01" true).
  vm_compute. reflexivity.
Defined.

(** X13: the device page raises exactly when a present reading makes
    [analyze_data] raise, with that exception; a failed fetch or an
    absent reading never does. *)
Theorem main_status_raises (now1 now2 : Z) (store : string -> pyval + string)
    (device_id : string) (auto_refresh : bool) (e : exn) :
  main_status now1 now2 store device_id auto_refresh = Raise e <->
  exists data, store (lab_path device_id) = inl data /\ truthy data = true /\
               analyze_data now1 data = Raise e.
Proof.
  unfold main_status, get_latest_data. fold (lab_path device_id). split.
  - destruct (store (lab_path device_id)) as [data|msg]; [|discriminate].
    destruct (truthy data) eqn:Htruthy; cbn [negb]; [|discriminate].
    destruct (analyze_data now1 data) as [[[status message] color]|e'] eqn:Han;
      cbn [bind].
    + destruct (is_sensor_online_ok now2 data 30) as [on2 ->]. cbn [bind].
      destruct (_ || _); discriminate.
    + intros H. injection H as <-. exists data. auto.
  - intros (data & -> & -> & ->). reflexivity.
Qed.

Lemma main_status_raises_witness :
  main_status 0 0 broken_store "sensor_node_02" true = Raise TypeError.
Proof.
  apply (proj2 (main_status_raises 0 0 broken_store "sensor_node_02" true TypeError)).
  exists (with_metric "temperature" (PStr "hot")).
  split; [|split]; vm_compute; reflexivity.
Defined.

(** ** The caption, the gas card and the energy tip *)

(** X14: a timestamp that is not a number passes the online check, at
    any clock and timeout, and then makes the caption raise
    [TypeError]: such a reading is classified and then breaks the
    page. *)
Theorem caption_raises_when_misstamped (strftime_local : pyval -> result string)
    (now timeout : Z) (m : gmap string pyval) (ts : pyval) :
  m !! "timestamp" = Some ts -> is_number ts = false ->
  is_sensor_online now (PDict m) timeout = Ok true /\
  last_update_caption strftime_local (PDict m) = Raise TypeError.
Proof.
  intros Hts Hnum. split.
  - unfold is_sensor_online, online_try.
    rewrite (dict_truthy _ _ _ Hts), py_in_dict, Hts.
    rewrite bool_decide_eq_true_2 by eauto.
    cbn [negb bind py_get]. rewrite Hts.
    change (default (PInt 0) (Some ts)) with ts.
    rewrite py_gt_not_number by assumption. reflexivity.
  - unfold last_update_caption. cbn [py_get bind]. rewrite Hts.
    change (default (PInt 0) (Some ts)) with ts.
    rewrite py_gt_not_number by assumption. reflexivity.
Qed.

Lemma caption_raises_when_misstamped_witness :
  analyze_data 0 (PDict misstamped) =
    Ok (SAFE, "All parameters within safe range", "green") /\
  is_sensor_online 0 (PDict misstamped) 30 = Ok true /\
  last_update_caption sample_strftime (PDict misstamped) = Raise TypeError.
Proof.
  split; [vm_compute; reflexivity|].
  apply (caption_raises_when_misstamped sample_strftime 0 30 misstamped (PStr "noon"));
    vm_compute; reflexivity.
Defined.

(** X15: for a reading whose timestamp is a number or missing, the
    caption follows the online check's reading of the timestamp.  When
    the timestamp is taken as an epoch second, it is formatted as local
    time: if the formatting succeeds the caption is "Last update" with
    that text, and if it raises (as [datetime.fromtimestamp] does with
    [ValueError] for a year after 9999) the caption raises the same
    exception and nothing is shown.  Otherwise the formatting is not
    attempted: the caption is the uptime in seconds for a positive
    timestamp and nothing for a timestamp that is missing, zero or
    negative. *)
Theorem caption_follows_epoch (strftime_local : pyval -> result string)
    (m : gmap string pyval) :
  is_number (default (PInt 0) (m !! "timestamp")) = true ->
  let timestamp := default (PInt 0) (m !! "timestamp") in
  (epoch_stamped (PDict m) ->
   (forall text, strftime_local timestamp = Ok text ->
      last_update_caption strftime_local (PDict m) =
      Ok [Caption ("üì° Last update: " +:+ text)]) /\
   (forall e, strftime_local timestamp = Raise e ->
      last_update_caption strftime_local (PDict m) = Raise e)) /\
  (~ epoch_stamped (PDict m) ->
   last_update_caption strftime_local (PDict m) =
   Ok (if exceeds (qval timestamp) 0
       then [Caption ("üì° Sensor uptime: " +:+ py_str timestamp +:+ " seconds")]
       else [])).
Proof.
  intros Hnum timestamp. unfold last_update_caption. cbn [py_get bind].
  fold timestamp. fold timestamp in Hnum.
  rewrite !(py_gt_number timestamp) by assumption. cbn [bind].
  split.
  - intros (m' & ts & Hd & Hts & _ & Hex). injection Hd as <-.
    assert (Heq : timestamp = ts) by (unfold timestamp; rewrite Hts; reflexivity).
    rewrite Heq, Hex.
    assert (Hpos : exceeds (qval ts) 0 = true).
    { apply exceeds_iff. apply exceeds_iff in Hex.
      eapply Qlt_trans; [|exact Hex]. reflexivity. }
    rewrite Hpos. split; [intros text ->|intros e ->]; reflexivity.
  - intros Hne. destruct (exceeds (qval timestamp) 0) eqn:Hpos; [|reflexivity].
    destruct (exceeds (qval timestamp) 1000000000) eqn:Hex; [|reflexivity].
    exfalso. apply Hne.
    destruct (m !! "timestamp") as [ts|] eqn:Hts.
    + exists m, ts. auto.
    + vm_compute in Hpos. discriminate.
Qed.

Lemma caption_follows_epoch_witness :
  last_update_caption sample_strftime (stamped 1234) =
    Ok [Caption "üì° Sensor uptime: 1234 seconds"] /\
  last_update_caption sample_strftime (stamped 1700000000) =
    Ok [Caption "üì° Last update: 2023-11-14 22:13:20"] /\
  last_update_caption failing_strftime (PDict far_stamped) = Raise ValueError.
Proof.
  split; [|split].
  - refine (eq_trans
              (proj2 (caption_follows_epoch sample_strftime
                        (list_to_map (("timestamp", PInt 1234) :: safe_fields)) _) _) _).
    + vm_compute. reflexivity.
    + intros (m & ts & Hd & Hts & _ & Hex).
      injection Hd as <-. vm_compute in Hts. injection Hts as <-.
      vm_compute in Hex. discriminate.
    + vm_compute. reflexivity.
  - refine (proj1 (proj1 (caption_follows_epoch sample_strftime
                            (list_to_map (("timestamp", PInt 1700000000) :: safe_fields))
                            _) _) _ _).
    + vm_compute. reflexivity.
    + exists (list_to_map (("timestamp", PInt 1700000000) :: safe_fields)),
        (PInt 1700000000).
      split; [reflexivity|split; [|split]]; vm_compute; reflexivity.
    + reflexivity.
  - refine (proj2 (proj1 (caption_follows_epoch failing_strftime far_stamped _) _)
              ValueError _).
    + vm_compute. reflexivity.
    + exists far_stamped, (PInt 1700000000000).
      split; [reflexivity|split; [|split]]; vm_compute; reflexivity.
    + reflexivity.
Defined.

Lemma under_false (x : Q) (k : Z) : under x k = false <-> (inject_Z k <= x)%Q.
Proof.
  unfold under. rewrite negb_false_iff. apply Qle_bool_iff.
Qed.

Lemma exceeds_false (x : Q) (k : Z) : exceeds x k = false <-> (x <= inject_Z k)%Q.
Proof.
  unfold exceeds. rewrite negb_false_iff. apply Qle_bool_iff.
Qed.

Lemma gas_status_number (gas : pyval) :
  is_number gas = true ->
  gas_status gas =
  Ok (if under (qval gas) 500 then "Safe"
      else if under (qval gas) 800 then "Elevated" else "Danger").
Proof.
  intros Hnum. unfold gas_status. rewrite !py_lt_number by assumption.
  cbn [bind]. destruct (under (qval gas) 500); [reflexivity|].
  destruct (under (qval gas) 800); reflexivity.
Qed.

(** X16: the label of the gas card against the classifier, for every
    numeric gas level and safe temperature and humidity.  Below 500 the
    card says Safe and there is no gas reason; strictly between 500 and
    800 it says Elevated and there is the warning reason; above 800 it
    says Danger and there is the critical reason.  At exactly 500 the
    card already says Elevated while the classifier reports nothing,
    and at exactly 800 the card says Danger while the classifier only
    warns. *)
Theorem gas_card_against_classifier (gas : pyval) :
  is_number gas = true ->
  ((qval gas < 500)%Q ->
   gas_status gas = Ok "Safe" /\
   analyze_issues (PInt 22) (PInt 45) gas = Ok ([], [])) /\
  ((qval gas == 500)%Q ->
   gas_status gas = Ok "Elevated" /\
   analyze_issues (PInt 22) (PInt 45) gas = Ok ([], [])) /\
  ((500 < qval gas)%Q -> (qval gas < 800)%Q ->
   gas_status gas = Ok "Elevated" /\
   analyze_issues (PInt 22) (PInt 45) gas = Ok ([], [reason Gas Warning gas])) /\
  ((qval gas == 800)%Q ->
   gas_status gas = Ok "Danger" /\
   analyze_issues (PInt 22) (PInt 45) gas = Ok ([], [reason Gas Warning gas])) /\
  ((800 < qval gas)%Q ->
   gas_status gas = Ok "Danger" /\
   analyze_issues (PInt 22) (PInt 45) gas = Ok ([reason Gas Critical gas], [])).
Proof.
  intros Hnum. rewrite (gas_status_number gas Hnum).
  destruct (gas_row gas Hnum) as (Hcrit & Hwarn & Hnone).
  pose proof (under_iff (qval gas) 500) as Hu5.
  pose proof (under_false (qval gas) 500) as Hf5.
  pose proof (under_iff (qval gas) 800) as Hu8.
  pose proof (under_false (qval gas) 800) as Hf8.
  unfold inject_Z in *.
  repeat split; intros.
  - destruct (under (qval gas) 500); [reflexivity|].
    exfalso. assert (500 <= qval gas)%Q by (apply Hf5; reflexivity). lra.
  - apply Hnone; lra.
  - destruct (under (qval gas) 500);
      [exfalso; assert (qval gas < 500)%Q by (apply Hu5; reflexivity); lra|].
    destruct (under (qval gas) 800); [reflexivity|].
    exfalso. assert (800 <= qval gas)%Q by (apply Hf8; reflexivity). lra.
  - apply Hnone; lra.
  - destruct (under (qval gas) 500);
      [exfalso; assert (qval gas < 500)%Q by (apply Hu5; reflexivity); lra|].
    destruct (under (qval gas) 800); [reflexivity|].
    exfalso. assert (800 <= qval gas)%Q by (apply Hf8; reflexivity). lra.
  - apply Hwarn; lra.
  - destruct (under (qval gas) 500);
      [exfalso; assert (qval gas < 500)%Q by (apply Hu5; reflexivity); lra|].
    destruct (under (qval gas) 800); [|reflexivity].
    exfalso. assert (qval gas < 800)%Q by (apply Hu8; reflexivity). lra.
  - apply Hwarn; lra.
  - destruct (under (qval gas) 500);
      [exfalso; assert (qval gas < 500)%Q by (apply Hu5; reflexivity); lra|].
    destruct (under (qval gas) 800); [|reflexivity].
    exfalso. assert (qval gas < 800)%Q by (apply Hu8; reflexivity). lra.
  - apply Hcrit; lra.
Qed.

Lemma gas_card_against_classifier_witness :
  (gas_status (PInt 500) = Ok "Elevated" /\
   analyze_issues (PInt 22) (PInt 45) (PInt 500) = Ok ([], [])) /\
  (gas_status (PInt 800) = Ok "Danger" /\
   analyze_issues (PInt 22) (PInt 45) (PInt 800) =
     Ok ([], [reason Gas Warning (PInt 800)])).
Proof.
  split.
  - apply (proj1 (proj2 (gas_card_against_classifier (PInt 500) eq_refl))).
    vm_compute. reflexivity.
  - apply (proj1 (proj2 (proj2 (proj2
             (gas_card_against_classifier (PInt 800) eq_refl))))).
    vm_compute. reflexivity.
Defined.

(** X17: the comfort tip agrees with the banner.  For an online
    reading with numeric metrics, whenever the energy section shows the
    comfort tip, the lab is occupied, the air conditioning is off and
    [analyze_data] has reported WARNING or CRITICAL, never SAFE. *)
Theorem comfort_tip_means_alert (now : Z) (m : gmap string pyval)
    (motion ac_status : pyval) (s : string) :
  is_sensor_online now (PDict m) 30 = Ok true ->
  numeric_metrics m ->
  energy_tip motion ac_status (metric_of m "temperature") = Ok [Info s] ->
  truthy motion = true /\ truthy ac_status = false /\
  exists t msg color,
    analyze_data now (PDict m) = Ok (t, msg, color) /\
    (t = WARNING \/ t = CRITICAL).
Proof.
  intros Hon Hnum. pose proof Hnum as (Ht & _ & _).
  rewrite (analyze_data_online now m Hon Hnum).
  unfold energy_tip.
  destruct (truthy motion), (truthy ac_status); cbn [negb andb bind];
    try discriminate.
  rewrite py_gt_number by assumption. cbn [bind].
  destruct (exceeds (qval (metric_of m "temperature")) 26) eqn:Hex;
    [|discriminate].
  intros _. split; [reflexivity|split; [reflexivity|]].
  unfold report, spec_classify, readings, reasons_at. cbn [flat_map].
  unfold metric_level at 1 4. rewrite Hex. cbn [orb].
  destruct (exceeds (qval (metric_of m "temperature")) 30
            || under (qval (metric_of m "temperature")) 10);
    cbn [level_eqb app].
  - eexists _, _, _. split; [reflexivity|]. right. reflexivity.
  - destruct (level_eqb (metric_level Humidity _) Critical);
      destruct (level_eqb (metric_level Gas _) Critical); cbn [app fst snd];
      eexists _, _, _; (split; [reflexivity|]); auto.
Qed.

Lemma comfort_tip_means_alert_witness :
  truthy (PBool true) = true /\ truthy (PBool false) = false /\
  exists t msg color,
    analyze_data 0 (PDict warm) = Ok (t, msg, color) /\
    (t = WARNING \/ t = CRITICAL).
Proof.
  eapply (comfort_tip_means_alert 0 warm (PBool true) (PBool false)).
  - vm_compute. reflexivity.
  - split; [|split]; vm_compute; reflexivity.
  - vm_compute. reflexivity.
Defined.
